(** * TwelveLabs MCP: clip selection and clip extraction

    A shallow embedding of [src/twelvelabs_mcp/server.py] and
    [src/twelvelabs_mcp/utils.py].

    - JSON-like Python objects are the inductive [value]; a Python [dict]
      with string keys is an association list in insertion order.
    - Python exceptions are the result type [result]; code that touches the
      environment, the file system, the uuid generator, the backing API or
      the transcoder subprocess runs in the monad [M], a state monad over
      [state] layered on [result].  What the outside does is read from a
      [world] record of oracles.
    - Console output is not modelled: [print] and [traceback.print_exc]
      leave no trace.  What is evaluated to build the text that is printed
      is modelled where it can raise: the handler of [server.download_clips]
      decodes the captured stderr of the failed process.
    - Only subclasses of [Exception] are modelled (no [KeyboardInterrupt],
      [SystemExit] or task cancellation). *)

From Stdlib Require Import ZArith Floats Ascii.
From stdpp Require Import base option list strings gmap pretty sorting.

Set Default Proof Using "Type".
Set Warnings "-register-all".

(** ** Python objects *)

Inductive value : Type :=
| VNone
| VBool (b : bool)
| VInt (z : Z)
| VFloat (f : float)
| VStr (s : string)
| VList (l : list value)
| VDict (d : list (string * value)).

Definition dict : Type := list (string * value).

(** ** Exceptions *)

Inductive exn_class : Type :=
| ValueError
| TypeError
| AttributeError
| KeyError
| IndexError
| OSError
| CalledProcessError
| ApiError
| UnicodeDecodeError.

#[global] Instance exn_class_eq_dec : EqDecision exn_class.
Proof. solve_decision. Defined.

Record exn : Type := mk_exn { exn_cls : exn_class; exn_msg : string }.

Inductive result (A : Type) : Type :=
| Ok (a : A)
| Raise (e : exn).
Arguments Ok {A} a.
Arguments Raise {A} e.

#[global] Instance result_ret : MRet result := @Ok.
#[global] Instance result_bind : MBind result := fun A B f m =>
  match m with
  | Ok a => f a
  | Raise e => Raise e
  end.

Definition raise_cls {A} (c : exn_class) : result A := Raise (mk_exn c "").

(** ** Primitive operations on objects *)

(** [bool(v)] *)
Definition truthy (v : value) : bool :=
  match v with
  | VNone => false
  | VBool b => b
  | VInt z => negb (z =? 0)%Z
  | VFloat f => negb (PrimFloat.eqb f 0%float)
  | VStr s => negb (String.eqb s "")
  | VList l => negb (bool_decide (length l = 0))
  | VDict d => negb (bool_decide (length d = 0))
  end.

Definition is_None (v : value) : bool :=
  match v with VNone => true | _ => false end.

Definition is_dict (v : value) : bool :=
  match v with VDict _ => true | _ => false end.

Definition is_str (v : value) : bool :=
  match v with VStr _ => true | _ => false end.

(** [d[k]] for a key that is present, [None] of [option] otherwise *)
Fixpoint dict_lookup (k : string) (d : dict) : option value :=
  match d with
  | [] => None
  | (k', v) :: d' => if String.eqb k k' then Some v else dict_lookup k d'
  end.

(** [d.get(k, dflt)] *)
Definition dict_get (d : dict) (k : string) (dflt : value) : value :=
  default dflt (dict_lookup k d).

(** [k in d] *)
Definition dict_mem (k : string) (d : dict) : bool :=
  bool_decide (is_Some (dict_lookup k d)).

(** [v.get(k, dflt)]: only a [dict] has the method. *)
Definition py_get (v : value) (k : string) (dflt : value) : result value :=
  match v with
  | VDict d => Ok (dict_get d k dflt)
  | _ => raise_cls AttributeError
  end.

(** [v[0]] *)
Definition py_getitem0 (v : value) : result value :=
  match v with
  | VList (x :: _) => Ok x
  | VList [] => raise_cls IndexError
  | VStr (String c _) => Ok (VStr (String c ""))
  | VStr EmptyString => raise_cls IndexError
  | VDict _ => raise_cls KeyError
  | _ => raise_cls TypeError
  end.

(** The stop index of the slice [[:n]] on a sequence of length [len]:
    a negative [n] counts from the end. *)
Definition slice_stop (n : Z) (len : nat) : nat :=
  if (0 <=? n)%Z then Z.to_nat n else Z.to_nat (Z.of_nat len + n).

(** [l[:n]] on a Python list *)
Definition list_slice_to {A} (n : Z) (l : list A) : list A :=
  take (slice_stop n (length l)) l.

(** [v[:n]]: lists and strings can be sliced. *)
Definition py_slice_to (n : Z) (v : value) : result value :=
  match v with
  | VList l => Ok (VList (list_slice_to n l))
  | VStr s => Ok (VStr (String.substring 0 (slice_stop n (String.length s)) s))
  | _ => raise_cls TypeError
  end.

Fixpoint chars (s : string) : list value :=
  match s with
  | EmptyString => []
  | String c s' => VStr (String c "") :: chars s'
  end.

(** The items a [for] loop or [list.extend] draws from [v]. *)
Definition py_iter (v : value) : result (list value) :=
  match v with
  | VList l => Ok l
  | VStr s => Ok (chars s)
  | VDict d => Ok (map (fun kv => VStr (fst kv)) d)
  | _ => raise_cls TypeError
  end.

(** ** The outside world *)

(** One argument of a command line: a literal, [str(v)] of an object (the
    decimal rendering is left symbolic) or an object passed as it is. *)
Inductive arg : Type :=
| Lit (s : string)
| StrOf (v : value)
| Raw (v : value).

Definition arg_is_str (a : arg) : bool :=
  match a with
  | Lit _ | StrOf _ => true
  | Raw v => is_str v
  end.

(** What becomes of a transcoder process: it could not be started, or it
    ran and exited with [code], having written its output file or not. *)
Inductive proc_outcome : Type :=
| SpawnError
| Exited (code : Z) (wrote_output : bool).

Record world : Type := {
  (** [os.environ.get] *)
  environ : string -> option string;
  (** [os.path.abspath (os.path.expanduser p)] *)
  abspath_expanduser : string -> string;
  (** whether [Path.mkdir(exist_ok=True, parents=True)] succeeds *)
  mkdir_ok : string -> bool;
  (** [str(uuid.uuid4())] at the k-th draw *)
  uuid4 : nat -> string;
  (** the k-th transcoder process started, by its command line *)
  transcoder : nat -> list arg -> proc_outcome;
  (** [client.index.video.retrieve(index_id, id).model_dump()] *)
  video_retrieve : string -> string -> result value;
  (** [client.search.query] on the keyword arguments, then [model_dump()] *)
  search_query : dict -> result value;
  (** whether the stderr captured from the k-th transcoder process is
      empty or decodes as UTF-8 *)
  stderr_utf8 : nat -> bool
}.

Inductive event : Type :=
| Mkdir (p : string)
| Spawn (cmd : list arg) (out : proc_outcome).

Record state : Type := {
  files : gset string;   (** the paths that exist *)
  spawned : nat;         (** transcoder processes started so far *)
  drawn : nat;           (** uuids drawn so far *)
  log : list event       (** file-system and process effects, oldest first *)
}.

Definition M (A : Type) : Type := state -> result A * state.

#[global] Instance M_ret : MRet M := fun A a st => (Ok a, st).
#[global] Instance M_bind : MBind M := fun A B f m st =>
  match m st with
  | (Ok a, st') => f a st'
  | (Raise e, st') => (Raise e, st')
  end.

Definition lift {A} (r : result A) : M A := fun st => (r, st).
Definition raise {A} (c : exn_class) (msg : string) : M A :=
  lift (Raise (mk_exn c msg)).

(** [try: body  except cls: handler]; [None] stands for [except Exception],
    which catches every modelled exception. *)
Definition catches (cls : option exn_class) (e : exn) : bool :=
  match cls with
  | None => true
  | Some c => bool_decide (exn_cls e = c)
  end.

Definition try_except {A} (body : M A) (cls : option exn_class)
    (handler : exn -> M A) : M A := fun st =>
  match body st with
  | (Ok a, st') => (Ok a, st')
  | (Raise e, st') => if catches cls e then handler e st' else (Raise e, st')
  end.

(** [v[k]] for a string key *)
Definition py_subscript (v : value) (k : string) : result value :=
  match v with
  | VDict d =>
      match dict_lookup k d with
      | Some x => Ok x
      | None => raise_cls KeyError
      end
  | _ => raise_cls TypeError
  end.

(** [d[k] = v] *)
Fixpoint dict_set (d : dict) (k : string) (v : value) : dict :=
  match d with
  | [] => [(k, v)]
  | (k', v') :: d' =>
      if String.eqb k k' then (k, v) :: d' else (k', v') :: dict_set d' k v
  end.

(** [pathlib.Path(dir) / name] for an absolute, normalised [dir] *)
Definition path_join (dir name : string) : string :=
  if String.eqb dir "/" then "/" +:+ name else dir +:+ "/" +:+ name.

Section effects.
Context (w : world).

Definition environ_get (k : string) : M (option string) :=
  fun st => (Ok (environ w k), st).

(** [Path(p).mkdir(exist_ok=True, parents=True)] *)
Definition mkdir (p : string) : M unit := fun st =>
  if mkdir_ok w p
  then (Ok tt, {| files := files st ∪ {[p]}; spawned := spawned st;
                  drawn := drawn st; log := log st ++ [Mkdir p] |})
  else (Raise (mk_exn OSError ""), st).

(** [os.path.exists(p)] *)
Definition path_exists (p : string) : M bool :=
  fun st => (Ok (bool_decide (p ∈ files st)), st).

(** [str(uuid.uuid4())] *)
Definition draw_uuid4 : M string := fun st =>
  (Ok (uuid4 w (drawn st)),
   {| files := files st; spawned := spawned st;
      drawn := S (drawn st); log := log st |}).

(** The file a command line names as its output: its last argument. *)
Definition output_of (cmd : list arg) : gset string :=
  match last cmd with
  | Some (Lit p) => {[p]}
  | _ => ∅
  end.

(** Start the transcoder on [cmd] and wait for it: the exit code, or
    [OSError] when the process cannot be started.  A command line with an
    argument that is not a string is refused with [TypeError] before any
    process is started. *)
Definition spawn_and_wait (cmd : list arg) : M Z := fun st =>
  if negb (forallb arg_is_str cmd) then (Raise (mk_exn TypeError ""), st)
  else
    let out := transcoder w (spawned st) cmd in
    let st' := {| files := match out with
                           | Exited _ true => files st ∪ output_of cmd
                           | _ => files st
                           end;
                  spawned := S (spawned st);
                  drawn := drawn st;
                  log := log st ++ [Spawn cmd out] |} in
    match out with
    | SpawnError => (Raise (mk_exn OSError ""), st')
    | Exited code _ => (Ok code, st')
    end.

(** [subprocess.run(cmd, check=True, capture_output=True)] *)
Definition subprocess_run (cmd : list arg) : M unit :=
  code ← spawn_and_wait cmd;
  if (code =? 0)%Z then mret tt else raise CalledProcessError "".

(** [e.stderr.decode() if e.stderr else 'None'] for the exception [e] of
    the process waited for last: the text, which is only printed, is not
    kept, but a stderr that is not UTF-8 raises [UnicodeDecodeError]. *)
Definition decode_stderr : M unit := fun st =>
  if stderr_utf8 w (pred (spawned st)) then (Ok tt, st)
  else (Raise (mk_exn UnicodeDecodeError ""), st).
End effects.

(** ** server.py *)

Module Server.
Section server.
Context (w : world).

(** [retrieve_video]: the handler prints and falls off the end of the
    function, which returns [None]. *)
Definition retrieve_video (index_id id : string) : M value :=
  try_except (lift (video_retrieve w index_id id)) None
    (fun _ => mret VNone).

Definition set_if (c : bool) (k : string) (v : value) (params : dict) : dict :=
  if c then dict_set params k v else params.

(** [search]; every argument after [index_id] is the object passed for
    it ([VNone] for [None]).  [num_clips] is accepted and not used. *)
Definition search (index_id : string)
    (options query_text query_media_url query_media_type
     adjust_confidence_level group_by threshold sort_option operator
     page_limit filter num_clips : value) : M value :=
  try_except
    (let params := [("index_id", VStr index_id)] in
     let params := set_if (truthy query_text) "query_text" query_text params in
     let params :=
       if truthy query_media_url
       then dict_set (dict_set params "query_media_url" query_media_url)
                     "query_media_type" query_media_type
       else params in
     let params := set_if (truthy options) "options" options params in
     let params := set_if (negb (is_None adjust_confidence_level))
                     "adjust_confidence_level" adjust_confidence_level params in
     let params := set_if (truthy group_by) "group_by" group_by params in
     let params := set_if (truthy threshold) "threshold" threshold params in
     let params := set_if (truthy sort_option) "sort_option" sort_option params in
     let params := set_if (truthy operator) "operator" operator params in
     let params := set_if (truthy page_limit) "page_limit" page_limit params in
     let params := set_if (truthy filter) "filter" filter params in
     lift (search_query w params))
    None
    (fun e => mret (VDict [("status", VStr "error");
                           ("message", VStr (exn_msg e))])).

(** The loop over the groups of a result grouped by video (lines
    164-168): [processed_clips] is extended by at most [num_clips] clips
    of each group that has some, and the loop is left as soon as it holds
    [num_clips] clips or more. *)
Fixpoint extend_groups (num_clips : Z) (groups processed_clips : list value)
    : result (list value) :=
  match groups with
  | [] => Ok processed_clips
  | group :: groups' =>
      clips ← py_get group "clips" VNone;
      if truthy clips then
        head ← py_slice_to num_clips clips;
        items ← py_iter head;
        let processed_clips := processed_clips ++ items in
        if (num_clips <=? Z.of_nat (length processed_clips))%Z
        then Ok processed_clips
        else extend_groups num_clips groups' processed_clips
      else extend_groups num_clips groups' processed_clips
  end.

(** [clips_data and isinstance(clips_data[0], dict) and "clips" in clips_data[0]] *)
Definition grouped_by_video (clips_data : value) : result bool :=
  if truthy clips_data then
    first ← py_getitem0 clips_data;
    match first with
    | VDict d => Ok (dict_mem "clips" d)
    | _ => Ok false
    end
  else Ok false.

(** Lines 155-175: the value of [processed_clips] when the download loop
    starts. *)
Definition processed_clips (num_clips : Z) (search_result : dict)
    : result value :=
  let clips_data := dict_get search_result "data" (VList []) in
  grouped ← grouped_by_video clips_data;
  processed ←
    (if grouped : bool then
       groups ← py_iter clips_data;
       processed ← extend_groups num_clips groups [];
       Ok (VList processed)
     else py_slice_to num_clips clips_data);
  py_slice_to num_clips processed.

(** The command line of lines 191-203 *)
Definition ffmpeg_cmd (start_time end_time m3u8_url : value)
    (output_path : string) : list arg :=
  [Lit "ffmpeg"; Lit "-y"; Lit "-ss"; StrOf start_time; Lit "-to";
   StrOf end_time; Lit "-i"; Raw m3u8_url; Lit "-c"; Lit "copy";
   Lit output_path].

Definition clip_entry (i : nat) (start_time end_time : value)
    (output_path : string) (clip : value) : value :=
  VDict [("index", VInt (Z.of_nat i)); ("start", start_time);
         ("end", end_time); ("path", VStr output_path);
         ("clip_data", clip)].

(** [f"clip_{clip_id}_{i}.mp4"] under [host_dir] *)
Definition clip_path (host_dir clip_id : string) (i : nat) : string :=
  path_join host_dir ("clip_" +:+ clip_id +:+ "_" +:+ pretty i +:+ ".mp4").

(** The body of the loop of lines 178-219 for the clip at index [i] *)
Definition download_one (host_dir : string) (m3u8_url : value) (i : nat)
    (clip : value) (downloaded_clips : list value) : M (list value) :=
  start_time ← lift (py_get clip "start" VNone);
  end_time ← lift (py_get clip "end" VNone);
  if is_None start_time || is_None end_time then mret downloaded_clips
  else
    uuid ← draw_uuid4 w;
    let clip_id := String.substring 0 8 uuid in
    let output_path := clip_path host_dir clip_id i in
    try_except
      (subprocess_run w (ffmpeg_cmd start_time end_time m3u8_url output_path);;
       mret (downloaded_clips ++
             [clip_entry i start_time end_time output_path clip]))
      (Some CalledProcessError)
      (fun _ => decode_stderr w;; mret downloaded_clips).

(** [for i, clip in enumerate(processed_clips)], from index [i] on *)
Fixpoint download_loop (host_dir : string) (m3u8_url : value) (i : nat)
    (clips : list value) (downloaded_clips : list value) : M (list value) :=
  match clips with
  | [] => mret downloaded_clips
  | clip :: clips' =>
      downloaded_clips ← download_one host_dir m3u8_url i clip downloaded_clips;
      download_loop host_dir m3u8_url (S i) clips' downloaded_clips
  end.

Definition no_hls_error : value :=
  VDict [("status", VStr "error");
         ("message", VStr "No HLS video URL found in video_info")].

Definition report (num_clips : Z) (downloaded_clips : list value) : value :=
  VDict [("status", VStr "success");
         ("clips_requested", VInt num_clips);
         ("clips_downloaded", VInt (Z.of_nat (length downloaded_clips)));
         ("clips", VList downloaded_clips)].

(** [not video_info.get("hls") or not video_info["hls"].get("video_url")] *)
Definition no_hls_url (video_info : dict) : result bool :=
  let hls := dict_get video_info "hls" VNone in
  if negb (truthy hls) then Ok true
  else
    video_url ← py_get hls "video_url" VNone;
    Ok (negb (truthy video_url)).

Definition download_clips (num_clips : Z) (search_result video_info : dict)
    : M value :=
  host_dir ← environ_get w "TWELVELABS_MCP_BASE_PATH";
  match host_dir with
  | None | Some EmptyString =>
      raise ValueError
        "TWELVELABS_MCP_BASE_PATH environment variable is required"
  | Some host_dir =>
      let host_dir := abspath_expanduser w host_dir in
      mkdir w host_dir;;
      missing ← lift (no_hls_url video_info);
      if missing : bool then mret no_hls_error
      else
        hls ← lift (py_subscript (VDict video_info) "hls");
        m3u8_url ← lift (py_subscript hls "video_url");
        processed ← lift (processed_clips num_clips search_result);
        clips ← lift (py_iter processed);
        downloaded_clips ← download_loop host_dir m3u8_url 0 clips [];
        mret (report num_clips downloaded_clips)
  end.
End server.
End Server.

(** ** utils.py *)

Module Utils.
(** The fields of [models.SearchData] and [models.GroupByVideoSearchData]
    that the code reads. *)
Record SearchData : Type := {
  video_id : string;
  start : float;
  end_ : float
}.

Record GroupByVideoSearchData : Type := {
  id : string;
  clips : option (list SearchData)
}.

(** An element of [search_data.data], by its class *)
Inductive item : Type :=
| IsSearchData (c : SearchData)
| IsGroupByVideoSearchData (g : GroupByVideoSearchData)
| IsOther.

(** [bool(item.clips)] *)
Definition has_clips (g : GroupByVideoSearchData) : bool :=
  match clips g with
  | Some (_ :: _) => true
  | _ => false
  end.

(** The loop of lines 25-29.  The test of line 28 looks up
    [models.GroupByVideoSearchData] each time it is reached, that is for
    every item that is not a [SearchData]; [group_class] says whether the
    module [twelvelabs.models] has that attribute, and the lookup raises
    [AttributeError] when it has not. *)
Fixpoint collect (group_class : bool) (data : list item)
    (clips_data : list SearchData) : result (list SearchData) :=
  match data with
  | [] => Ok clips_data
  | IsSearchData c :: data' => collect group_class data' (clips_data ++ [c])
  | it :: data' =>
      if group_class then
        collect group_class data'
          match it with
          | IsGroupByVideoSearchData g =>
              if has_clips g then clips_data ++ default [] (clips g)
              else clips_data
          | _ => clips_data
          end
      else raise_cls AttributeError
  end.

(** Lines 22-32 of [download_clips]: the clips it goes on to download *)
Definition clips_data (group_class : bool) (data : list item)
    (num_clips : Z) : result (list SearchData) :=
  clips_data ← collect group_class data [];
  Ok (list_slice_to num_clips clips_data).

(** [float(z)] for an [int]; exact on the constants it is applied to
    here (Python raises [OverflowError] beyond the range of a double). *)
Definition float_of_int (z : Z) : float :=
  SF2Prim (binary_normalize prec emax z 0 false).

Definition offset : Z := 5.

(** [max(0, x)] for a float [x]: [x] replaces the first argument only
    when [x > 0], so the result is the [int] 0 otherwise. *)
Definition max_0 (x : float) : value :=
  if (0 <? x)%float then VFloat x else VInt 0.

(** [x - v] for a float [x] and a number [v] *)
Definition float_sub (x : float) (v : value) : result float :=
  match v with
  | VFloat y => Ok (x - y)%float
  | VInt z => Ok (x - float_of_int z)%float
  | VBool b => Ok (x - float_of_int (if b then 1 else 0))%float
  | _ => raise_cls TypeError
  end.

(** Lines 115-122 *)
Record seek_plan : Type := {
  duration : float;
  input_seek : value;
  accurate_seek : float
}.

Definition plan_seek (start_time end_time : float) : result seek_plan :=
  let duration := (end_time - start_time)%float in
  d ← float_sub start_time (VInt offset);
  let input_seek := max_0 d in
  accurate_seek ← float_sub start_time input_seek;
  Ok {| duration := duration; input_seek := input_seek;
        accurate_seek := accurate_seek |}.

(** The command line of lines 125-161 *)
Definition ffmpeg_cmd (video_url : string) (p : seek_plan)
    (output_path : string) : list arg :=
  [Lit "ffmpeg"; Lit "-ss"; StrOf (input_seek p); Lit "-i"; Lit video_url;
   Lit "-ss"; StrOf (VFloat (accurate_seek p)); Lit "-t";
   StrOf (VFloat (duration p)); Lit "-c:v"; Lit "libx264"; Lit "-b:v";
   Lit "2M"; Lit "-maxrate"; Lit "2M"; Lit "-bufsize"; Lit "4M"; Lit "-r";
   Lit "30"; Lit "-pix_fmt"; Lit "yuv420p"; Lit "-c:a"; Lit "aac";
   Lit "-b:a"; Lit "192k"; Lit "-ar"; Lit "44100"; Lit "-preset";
   Lit "medium"; Lit "-crf"; Lit "23"; Lit "-movflags"; Lit "+faststart";
   Lit "-y"; Lit output_path].

Section utils.
Context (w : world).

(** [download_clip].  [subprocess.Popen] followed by [process.wait()] is
    [spawn_and_wait]; the two threads that drain the output of the
    process only print and are not modelled. *)
Definition download_clip (video_url : string) (start_time end_time : float)
    (output_path : string) : M bool :=
  present ← path_exists output_path;
  if present : bool then mret true
  else
    try_except
      (p ← lift (plan_seek start_time end_time);
       exit_code ← spawn_and_wait w (ffmpeg_cmd video_url p output_path);
       if (exit_code =? 0)%Z then mret true else mret false)
      None
      (fun _ => mret false).
End utils.

(** [get_video_url]: the placeholder of lines 69-88, which always answers
    with a URL built from the video id. *)
Definition get_video_url (index_id video_id : string) : option string :=
  Some ("https://example.com/videos/" +:+ video_id +:+ ".mp4").

Fixpoint ends_with_slash (s : string) : bool :=
  match s with
  | EmptyString => false
  | String c EmptyString => Ascii.eqb c "/"%char
  | String _ s' => ends_with_slash s'
  end.

(** [os.path.join(a, b)] on POSIX *)
Definition os_path_join (a b : string) : string :=
  match b with
  | String "/"%char _ => b
  | _ =>
      if String.eqb a "" || ends_with_slash a then a +:+ b
      else a +:+ "/" +:+ b
  end.

Section batch.
(** [group_class] is as for [collect]; [tmpdir] is [tempfile.gettempdir()];
    [format_2f x] is what the format specification [:.2f] prints for the
    float [x]. *)
Context (w : world) (group_class : bool) (tmpdir : string)
  (format_2f : float -> string).

(** [f"clip_{i + 1}_{clip.video_id}_{clip.start:.2f}_{clip.end:.2f}.mp4"] *)
Definition clip_filename (i : nat) (clip : SearchData) : string :=
  "clip_" +:+ pretty (i + 1) +:+ "_" +:+ video_id clip +:+ "_" +:+
  format_2f (start clip) +:+ "_" +:+ format_2f (end_ clip) +:+ ".mp4".

Definition output_dir : string := os_path_join tmpdir "twelvelabs_clips".

(** The loop of lines 45-63, from index [i] on *)
Fixpoint download_each (index_id : string) (i : nat)
    (clips : list SearchData) (downloaded_clips : list string)
    : M (list string) :=
  match clips with
  | [] => mret downloaded_clips
  | clip :: clips' =>
      match get_video_url index_id (video_id clip) with
      | None | Some EmptyString =>
          download_each index_id (S i) clips' downloaded_clips
      | Some video_url =>
          let output_path := os_path_join output_dir (clip_filename i clip) in
          success ← download_clip w video_url (start clip) (end_ clip)
                      output_path;
          download_each index_id (S i) clips'
            (if success : bool then downloaded_clips ++ [output_path]
             else downloaded_clips)
      end
  end.

(** [download_clips] of utils.py; [index_id] is [search_data.pool.index_id]
    and [data] is [search_data.data]. *)
Definition download_clips (index_id : string) (data : list item)
    (num_clips : Z) : M (list string) :=
  clips ← lift (clips_data group_class data num_clips);
  match clips with
  | [] => mret []
  | _ =>
      mkdir w output_dir;;
      download_each index_id 0 clips []
  end.
End batch.
End Utils.

(** ** The two shapes of a search result *)

(** A clip record is a [dict] without a ["clips"] entry. *)
Definition is_clip (v : value) : bool :=
  match v with
  | VDict d => negb (dict_mem "clips" d)
  | _ => false
  end.

(** A group is a [dict] whose ["clips"] entry is [None] or a list of clip
    records; [group_clips] is that list. *)
Definition group_clips (v : value) : option (list value) :=
  match v with
  | VDict d =>
      match dict_lookup "clips" d with
      | Some VNone => Some []
      | Some (VList cs) => if forallb is_clip cs then Some cs else None
      | _ => None
      end
  | _ => None
  end.

Definition data_of (search_result : dict) : value :=
  dict_get search_result "data" (VList []).

(** [search_result] is flat and lists the clip records [cs]. *)
Definition flat_result (search_result : dict) (cs : list value) : Prop :=
  data_of search_result = VList cs ∧ forallb is_clip cs = true.

(** [search_result] is grouped and its groups hold the clip lists [gs]. *)
Definition grouped_result (search_result : dict) (gs : list (list value))
    : Prop :=
  ∃ groups, data_of search_result = VList groups ∧
            Forall2 (fun g cs => group_clips g = Some cs) groups gs.

(** [search_result] has one of the two shapes and holds, in order, the
    clip records [cs]. *)
Definition result_clips (search_result : dict) (cs : list value) : Prop :=
  flat_result search_result cs ∨
  ∃ gs, grouped_result search_result gs ∧ cs = concat gs.

(** A clip record that has both timestamps *)
Definition has_times (clip : value) : bool :=
  match clip with
  | VDict d =>
      negb (is_None (dict_get d "start" VNone)) &&
      negb (is_None (dict_get d "end" VNone))
  | _ => false
  end.

(** The clips an element of [search_data.data] holds *)
Definition item_clips (it : Utils.item) : list Utils.SearchData :=
  match it with
  | Utils.IsSearchData c => [c]
  | Utils.IsGroupByVideoSearchData g => default [] (Utils.clips g)
  | Utils.IsOther => []
  end.

(** An element of [search_data.data] that is a [SearchData] *)
Definition is_search_data (it : Utils.item) : bool :=
  match it with Utils.IsSearchData _ => true | _ => false end.

(** ** Reading a run *)

Definition is_spawn (ev : event) : bool :=
  match ev with Spawn _ _ => true | Mkdir _ => false end.

(** A transcoder process that exited with code 0 *)
Definition exited_zero (ev : event) : bool :=
  match ev with
  | Spawn _ (Exited code _) => (code =? 0)%Z
  | _ => false
  end.

Definition clip_start (clip : value) : value :=
  match clip with VDict d => dict_get d "start" VNone | _ => VNone end.

Definition clip_end (clip : value) : value :=
  match clip with VDict d => dict_get d "end" VNone | _ => VNone end.

(** The ["clip_data"] of an entry of the report *)
Definition entry_clip (entry : value) : value :=
  match entry with VDict d => dict_get d "clip_data" VNone | _ => VNone end.

(** [entry] reports the clip at some index [j] of [sel], with that index,
    the timestamps of the clip, both present, and a path. *)
Definition entry_of (sel : list value) (entry : value) : Prop :=
  ∃ (j : nat) (clip : value) (path : string),
    sel !! j = Some clip ∧ has_times clip = true ∧
    entry = Server.clip_entry j (clip_start clip) (clip_end clip) path clip.

Definition with_spawn (st : state) (cmd : list arg) (out : proc_outcome)
    : state :=
  {| files := match out with
              | Exited _ true => files st ∪ output_of cmd
              | _ => files st
              end;
     spawned := S (spawned st);
     drawn := drawn st;
     log := log st ++ [Spawn cmd out] |}.

Definition with_draw (st : state) : state :=
  {| files := files st; spawned := spawned st;
     drawn := S (drawn st); log := log st |}.

Definition with_mkdir (st : state) (p : string) : state :=
  {| files := files st ∪ {[p]}; spawned := spawned st;
     drawn := drawn st; log := log st ++ [Mkdir p] |}.

(** ** Configuration and manifest *)

Definition base_path_key : string := "TWELVELABS_MCP_BASE_PATH".

(** The output directory is configured as [dir] and can be created. *)
Definition configured (w : world) (dir : string) : Prop :=
  ∃ p, environ w base_path_key = Some p ∧ p ≠ "" ∧
       abspath_expanduser w p = dir ∧ mkdir_ok w dir = true.

(** No output directory is configured: the variable is unset or empty. *)
Definition unconfigured (w : world) : Prop :=
  environ w base_path_key = None ∨ environ w base_path_key = Some "".

(** [video_info] has no ["hls"] field (none, or [None]), or its ["hls"]
    record has no ["video_url"] (none, or [None]). *)
Definition no_manifest (video_info : dict) : bool :=
  match dict_get video_info "hls" VNone with
  | VNone => true
  | VDict hls => is_None (dict_get hls "video_url" VNone)
  | _ => false
  end.

(** [video_info] gives the manifest URL [url], a string that is not empty. *)
Definition manifest_url (video_info : dict) (url : string) : Prop :=
  ∃ hls, dict_lookup "hls" video_info = Some (VDict hls) ∧
         dict_lookup "video_url" hls = Some (VStr url) ∧ url ≠ "".

(** No transcoder process is started between [st] and [st']. *)
Definition no_transcoder (st st' : state) : Prop :=
  spawned st' = spawned st ∧
  List.filter is_spawn (log st') = List.filter is_spawn (log st).

(** The command line of the turn at index [i] on the clip record [d],
    started in state [st] *)
Definition cmd_of (w : world) (host_dir : string) (m3u8_url : value)
    (i : nat) (d : dict) (st : state) : list arg :=
  Server.ffmpeg_cmd (dict_get d "start" VNone) (dict_get d "end" VNone)
    m3u8_url
    (Server.clip_path host_dir (String.substring 0 8 (uuid4 w (drawn st))) i).

(** Every transcoder process can be started. *)
Definition always_starts (w : world) : Prop :=
  ∀ k cmd, transcoder w k cmd ≠ SpawnError.

(** Every transcoder process exits with code 0. *)
Definition always_succeeds (w : world) : Prop :=
  ∀ k cmd, ∃ wrote, transcoder w k cmd = Exited 0 wrote.

(** The stderr captured from every transcoder process is empty or UTF-8. *)
Definition stderr_readable (w : world) : Prop :=
  ∀ k, stderr_utf8 w k = true.

(** ** The properties refuted below, as they are stated *)

(** C2, second half: an entry without timestamps is not counted against
    the limit, so the report holds the first [L] clips of [cs] that have
    both timestamps when every transcoder process succeeds. *)
Definition dropped_entries_free_slots (w : world) (L : Z) (sr vi : dict)
    (st : state) (cs : list value) : Prop :=
  ∃ downloaded st',
    Server.download_clips w L sr vi st =
      (Ok (Server.report L downloaded), st') ∧
    map entry_clip downloaded = take (Z.to_nat L) (List.filter has_times cs).

(** C3: without a manifest URL the tool returns the structured error and
    starts no transcoder. *)
Definition error_without_transcoder (w : world) (L : Z) (sr vi : dict)
    (st : state) : Prop :=
  no_manifest vi = true →
  ∃ st', Server.download_clips w L sr vi st = (Ok Server.no_hls_error, st') ∧
         no_transcoder st st'.

(** C4: no tool lets an exception out. *)
Definition tools_never_raise (w : world) : Prop :=
  (∀ index_id id st, ∃ v st',
     Server.retrieve_video w index_id id st = (Ok v, st')) ∧
  (∀ index_id a1 a2 a3 a4 a5 a6 a7 a8 a9 a10 a11 a12 st, ∃ v st',
     Server.search w index_id a1 a2 a3 a4 a5 a6 a7 a8 a9 a10 a11 a12 st
       = (Ok v, st')) ∧
  (∀ L sr vi st, ∃ v st', Server.download_clips w L sr vi st = (Ok v, st')).

(** C7: of two calls in a row on the same arguments, the second returns
    [True] and starts no transcoder, so that at most one is started. *)
Definition second_call_skips (w : world) (video_url : string)
    (start_time end_time : float) (output_path : string) (st : state)
    : Prop :=
  let st1 := snd (Utils.download_clip w video_url start_time end_time
                    output_path st) in
  let '(r2, st2) := Utils.download_clip w video_url start_time end_time
                      output_path st1 in
  r2 = Ok true ∧ spawned st2 = spawned st1 ∧ spawned st2 ≤ S (spawned st).

(** C8: both shapes of the same clips give the same selection. *)
Definition shape_invariant (L : Z) (flat grouped : dict) : Prop :=
  ∀ cs gs, flat_result flat cs → grouped_result grouped gs →
           concat gs = cs →
           Server.processed_clips L flat = Server.processed_clips L grouped.

(** ** Sample inputs *)

Definition world_of (base_path : option string)
    (outcome : nat → proc_outcome) : world :=
  {| environ := fun k =>
       if String.eqb k base_path_key then base_path else None;
     abspath_expanduser := fun p =>
       if String.eqb (String.substring 0 2 p) "~/"
       then "/home/user/" +:+ String.substring 2 (String.length p) p
       else p;
     mkdir_ok := fun _ => true;
     uuid4 := fun k => "4f9c2e7a-1b3d-4c5e-8f90-" +:+ pretty k;
     transcoder := fun k _ => outcome k;
     video_retrieve := fun _ _ => Raise (mk_exn ApiError "not found");
     search_query := fun _ => Raise (mk_exn ApiError "bad request");
     stderr_utf8 := fun _ => true |}.

Definition st0 : state :=
  {| files := ∅; spawned := 0; drawn := 0; log := [] |}.

Definition clip (s e : Z) : value :=
  VDict [("score", VFloat 80); ("start", VInt s); ("end", VInt e);
         ("video_id", VStr "v1")].

Definition clip_without_end (s : Z) : value :=
  VDict [("score", VFloat 80); ("start", VInt s); ("video_id", VStr "v1")].

Definition group (cs : list value) : value :=
  VDict [("id", VStr "v1"); ("clips", VList cs)].

Definition flat_of (cs : list value) : dict := [("data", VList cs)].

Definition video_with_hls : dict :=
  [("id", VStr "v1");
   ("hls", VDict [("video_url", VStr "https://cdn.example/v1.m3u8");
                  ("status", VStr "COMPLETE")])].

Definition video_without_hls : dict := [("id", VStr "v1"); ("hls", VNone)].

(** The directory is ["~/clips"]; the processes started second and fourth
    exit with code 1, the others with code 0. *)
Definition world_two_fail : world :=
  world_of (Some "~/clips")
    (fun k => if bool_decide (k = 1 ∨ k = 3) then Exited 1 false
              else Exited 0 true).

Definition world_all_ok : world :=
  world_of (Some "~/clips") (fun _ => Exited 0 true).

(** No output directory is configured. *)
Definition world_unconfigured : world :=
  world_of None (fun _ => Exited 0 true).

(** The transcoder exits with code 1 and leaves no file. *)
Definition world_failing : world :=
  world_of (Some "~/clips") (fun _ => Exited 1 false).

(** The transcoder exits with code 1, leaves no file and writes bytes
    that are not UTF-8 to its stderr. *)
Definition world_undecodable : world :=
  {| environ := environ world_failing;
     abspath_expanduser := abspath_expanduser world_failing;
     mkdir_ok := mkdir_ok world_failing;
     uuid4 := uuid4 world_failing;
     transcoder := transcoder world_failing;
     video_retrieve := video_retrieve world_failing;
     search_query := search_query world_failing;
     stderr_utf8 := fun _ => false |}.

Definition five_clips : list value :=
  [clip 1 2; clip 3 4; clip 5 6; clip 7 8; clip 9 10].

(** ** Further readings of a run *)

(** The keyword arguments [search] builds for [client.search.query]
    (lines 94-119) *)
Definition search_params (index_id : string)
    (options query_text query_media_url query_media_type
     adjust_confidence_level group_by threshold sort_option operator
     page_limit filter : value) : dict :=
  let params := [("index_id", VStr index_id)] in
  let params := Server.set_if (truthy query_text) "query_text" query_text params in
  let params :=
    if truthy query_media_url
    then dict_set (dict_set params "query_media_url" query_media_url)
                  "query_media_type" query_media_type
    else params in
  let params := Server.set_if (truthy options) "options" options params in
  let params := Server.set_if (negb (is_None adjust_confidence_level))
                  "adjust_confidence_level" adjust_confidence_level params in
  let params := Server.set_if (truthy group_by) "group_by" group_by params in
  let params := Server.set_if (truthy threshold) "threshold" threshold params in
  let params := Server.set_if (truthy sort_option) "sort_option" sort_option params in
  let params := Server.set_if (truthy operator) "operator" operator params in
  let params := Server.set_if (truthy page_limit) "page_limit" page_limit params in
  Server.set_if (truthy filter) "filter" filter params.

(** [Some v] when the condition holds *)
Definition sent_if (c : bool) (v : value) : option value :=
  if c then Some v else None.

(** The ["index"] and the ["path"] of an entry of the report *)
Definition entry_index (entry : value) : Z :=
  match entry with
  | VDict d => match dict_get d "index" VNone with VInt z => z | _ => -1 end
  | _ => -1
  end.

Definition entry_path (entry : value) : value :=
  match entry with VDict d => dict_get d "path" VNone | _ => VNone end.

(** The clips with both timestamps whose transcoder process, the events
    taken in order, exited with code 0 *)
Definition succeeded (clips : list value) (evs : list event) : list value :=
  map fst (List.filter (fun ce => exited_zero (snd ce))
             (zip (List.filter has_times clips) evs)).

(** Every element of [data] can be classified: the library has the class
    of groups, or every element is a clip. *)
Definition classifiable (group_class : bool) (data : list Utils.item)
    : Prop :=
  group_class || forallb is_search_data data = true.

(** No transcoder process can be started, as when the program is not
    installed. *)
Definition never_starts (w : world) : Prop :=
  ∀ k cmd, transcoder w k cmd = SpawnError.

(** Every transcoder process exits with code 0 and has written its file. *)
Definition always_writes (w : world) : Prop :=
  ∀ k cmd, transcoder w k cmd = Exited 0 true.

(** [entry] has an index from [i] on and the path of that index under
    [dir]. *)
Definition slot_from (dir : string) (i : nat) (entry : value) : Prop :=
  (Z.of_nat i ≤ entry_index entry)%Z ∧
  ∃ id, entry_path entry
        = VStr (Server.clip_path dir id (Z.to_nat (entry_index entry))).

Definition index_lt (a b : value) : Prop :=
  (entry_index a < entry_index b)%Z.

(** Decimal digits *)
Definition is_digit (c : Ascii.ascii) : bool :=
  (48 <=? Ascii.nat_of_ascii c) && (Ascii.nat_of_ascii c <=? 57).

(** The paths [utils.download_clips] plans for [clips], from index [i] on *)
Fixpoint planned_paths (tmpdir : string) (format_2f : float → string)
    (i : nat) (clips : list Utils.SearchData) : list string :=
  match clips with
  | [] => []
  | clip :: clips' =>
      Utils.os_path_join (Utils.output_dir tmpdir)
        (Utils.clip_filename format_2f i clip)
      :: planned_paths tmpdir format_2f (S i) clips'
  end.

(** The seek plan of [utils.download_clip] for a start and an end *)
Definition seek_of (s e : float) : Utils.seek_plan :=
  {| Utils.duration := (e - s)%float;
     Utils.input_seek := Utils.max_0 (s - 5)%float;
     Utils.accurate_seek :=
       if (0 <? s - 5)%float then (s - (s - 5))%float else (s - 0)%float |}.

(** The URL [get_video_url] answers with *)
Definition url_of (clip : Utils.SearchData) : string :=
  "https://example.com/videos/" +:+ Utils.video_id clip +:+ ".mp4".

(** What one call of [utils.download_clip] does, by cases *)
Definition clip_outcome (w : world) (url out : string)
    (p : Utils.seek_plan) (st : state) : bool * state :=
  if bool_decide (out ∈ files st) then (true, st)
  else
    let cmd := Utils.ffmpeg_cmd url p out in
    let o := transcoder w (spawned st) cmd in
    (match o with Exited 0 _ => true | _ => false end, with_spawn st cmd o).

(** Sample inputs for [utils.download_clips] *)
Definition two_decimals (x : float) : string :=
  if (x =? 10)%float then "10.00"
  else if (x =? 15)%float then "15.00" else "0.00".

Definition sample_clips : list Utils.SearchData :=
  [{| Utils.video_id := "v1"; Utils.start := 10; Utils.end_ := 15 |};
   {| Utils.video_id := "v2"; Utils.start := 10; Utils.end_ := 15 |}].

Definition sample_data : list Utils.item :=
  [Utils.IsGroupByVideoSearchData
     {| Utils.id := "v1"; Utils.clips := Some (take 1 sample_clips) |};
   Utils.IsOther;
   Utils.IsSearchData {| Utils.video_id := "v2"; Utils.start := 10;
                         Utils.end_ := 15 |}].

(** The same clips, each an element of its own *)
Definition flat_sample_data : list Utils.item :=
  map Utils.IsSearchData sample_clips.

(** ** Monad equations *)

Lemma result_bind_Ok {A B} (a : A) (f : A → result B) : (Ok a ≫= f) = f a.
Proof. reflexivity. Qed.

Lemma M_bind_unfold {A B} (m : M A) (f : A → M B) (st : state) :
  (m ≫= f) st =
  match m st with
  | (Ok a, st') => f a st'
  | (Raise e, st') => (Raise e, st')
  end.
Proof. reflexivity. Qed.

Lemma M_bind_lift_Ok {A B} (a : A) (f : A → M B) (st : state) :
  (lift (Ok a) ≫= f) st = f a st.
Proof. reflexivity. Qed.

(** ** Slices *)

Lemma slice_stop_nonneg (n : Z) (len : nat) :
  (0 ≤ n)%Z → slice_stop n len = Z.to_nat n.
Proof. intros Hn. unfold slice_stop. by rewrite (proj2 (Z.leb_le 0 n)). Qed.

Lemma list_slice_to_nonneg {A} (n : Z) (l : list A) :
  (0 ≤ n)%Z → list_slice_to n l = take (Z.to_nat n) l.
Proof. intros Hn. unfold list_slice_to. by rewrite slice_stop_nonneg. Qed.

Lemma take_app_take {A} (n : nat) (l k : list A) :
  take n (l ++ take n k) = take n (l ++ k).
Proof. rewrite !take_app, take_take. do 2 f_equal. lia. Qed.

(** ** The selection of [server.download_clips] *)

Lemma is_clip_not_grouped (c : value) (cs : list value) :
  is_clip c = true → Server.grouped_by_video (VList (c :: cs)) = Ok false.
Proof.
  destruct c; try discriminate. simpl. intros H.
  apply negb_true_iff in H. unfold Server.grouped_by_video. simpl.
  by rewrite H.
Qed.

Lemma flat_not_grouped (cs : list value) :
  forallb is_clip cs = true → Server.grouped_by_video (VList cs) = Ok false.
Proof.
  destruct cs as [|c cs]; [done|]. simpl forallb. intros H.
  apply andb_true_iff in H as [H _]. by apply is_clip_not_grouped.
Qed.

(** A flat result is cut twice by the same slice. *)
Lemma processed_clips_flat (L : Z) (sr : dict) (cs : list value) :
  flat_result sr cs →
  Server.processed_clips L sr =
    Ok (VList (list_slice_to L (list_slice_to L cs))).
Proof.
  intros [Hd Hc]. unfold Server.processed_clips. fold (data_of sr).
  rewrite Hd, (flat_not_grouped _ Hc). reflexivity.
Qed.

Lemma group_clips_inv (g : value) (cs : list value) :
  group_clips g = Some cs →
  ∃ d, g = VDict d ∧
       ((dict_lookup "clips" d = Some VNone ∧ cs = []) ∨
        (dict_lookup "clips" d = Some (VList cs) ∧ forallb is_clip cs = true)).
Proof.
  destruct g as [| | | | | |d]; try discriminate. simpl.
  destruct (dict_lookup "clips" d) as [[| | | | |l|]|] eqn:E; try discriminate.
  - intros [= <-]. eauto.
  - destruct (forallb is_clip l) eqn:F; [|discriminate].
    intros [= <-]. eauto.
Qed.

Lemma grouped_is_grouped (g : value) (groups : list value) (cs : list value) :
  group_clips g = Some cs →
  Server.grouped_by_video (VList (g :: groups)) = Ok true.
Proof.
  intros (d & -> & H)%group_clips_inv.
  unfold Server.grouped_by_video, dict_mem. simpl.
  by destruct H as [[-> _]|[-> _]].
Qed.

Lemma forallb_take {A} (f : A → bool) (n : nat) (l : list A) :
  forallb f l = true → forallb f (take n l) = true.
Proof.
  revert n. induction l as [|x l IH]; intros [|n]; simpl; try done.
  intros [Hx Hl]%andb_true_iff. rewrite Hx. simpl. by apply IH.
Qed.

Lemma sublist_app_take {A} (acc cs rest : list A) (k : nat) :
  (acc ++ take k cs) ++ rest `sublist_of` acc ++ cs ++ rest.
Proof.
  rewrite <- (assoc_L (++)). apply sublist_app; [done|].
  apply sublist_app; [apply sublist_take | done].
Qed.

Lemma extend_groups_skip (L : Z) (d : dict) (groups acc : list value) :
  dict_lookup "clips" d = Some VNone ∨ dict_lookup "clips" d = Some (VList []) →
  Server.extend_groups L (VDict d :: groups) acc =
    Server.extend_groups L groups acc.
Proof. intros [H|H]; simpl; unfold dict_get; by rewrite H. Qed.

Lemma extend_groups_take (L : Z) (d : dict) (cs groups acc : list value) :
  dict_lookup "clips" d = Some (VList cs) → cs ≠ [] →
  Server.extend_groups L (VDict d :: groups) acc =
    if (L <=? Z.of_nat (length (acc ++ list_slice_to L cs)))%Z
    then Ok (acc ++ list_slice_to L cs)
    else Server.extend_groups L groups (acc ++ list_slice_to L cs).
Proof.
  intros H Hne. simpl. unfold dict_get. rewrite H. simpl.
  destruct cs; [done|]. reflexivity.
Qed.

(** The loop over the groups: it returns, what it returns are clip records
    in the order of the groups, and for a limit that is not negative the
    first [L] of them are the first [L] clips of the groups. *)
Lemma extend_groups_spec (L : Z) (groups : list value)
    (gs : list (list value)) :
  Forall2 (fun g cs => group_clips g = Some cs) groups gs →
  ∀ acc, forallb is_clip acc = true →
  ∃ r, Server.extend_groups L groups acc = Ok r ∧
       forallb is_clip r = true ∧
       r `sublist_of` acc ++ concat gs ∧
       ((0 ≤ L)%Z →
        take (Z.to_nat L) r = take (Z.to_nat L) (acc ++ concat gs)).
Proof.
  induction 1 as [|g cs groups gs Hg _ IH]; intros acc Hacc.
  - exists acc. simpl. rewrite app_nil_r. done.
  - apply group_clips_inv in Hg as (d & -> & Hd).
    change (concat (cs :: gs)) with (cs ++ concat gs).
    destruct Hd as [[Hd ->]|[Hd Hcs]].
    { rewrite extend_groups_skip by auto. by apply IH. }
    destruct (decide (cs = [])) as [->|Hne].
    { rewrite extend_groups_skip by auto. by apply IH. }
    rewrite (extend_groups_take L d cs) by done.
    destruct (Z.leb_spec L (Z.of_nat (length (acc ++ list_slice_to L cs))))
      as [Hle|Hlt].
    + exists (acc ++ list_slice_to L cs). split_and!; [done| | |].
      * rewrite forallb_app, Hacc. simpl. by apply forallb_take.
      * apply sublist_app; [done|]. apply sublist_inserts_r, sublist_take.
      * intros HL. rewrite list_slice_to_nonneg in * by done.
        rewrite take_app_take, (assoc_L (++)).
        symmetry. apply take_app_le.
        rewrite length_app in *. rewrite length_take in Hle. lia.
    + destruct (IH (acc ++ list_slice_to L cs)) as (r & Hr & Hclip & Hsub & Htake).
      { rewrite forallb_app, Hacc. simpl. by apply forallb_take. }
      exists r. split_and!; [done|done| |].
      * etrans; [exact Hsub|]. apply sublist_app_take.
      * intros HL. rewrite (Htake HL).
        rewrite list_slice_to_nonneg in * by done.
        rewrite length_app, length_take in Hlt.
        rewrite (take_ge cs) by lia. by rewrite <- (assoc_L (++)).
Qed.

(** A grouped result under a limit that is not negative: the first [L]
    clips of the groups, in order. *)
Lemma processed_clips_grouped (L : Z) (sr : dict) (gs : list (list value)) :
  (0 ≤ L)%Z → grouped_result sr gs →
  Server.processed_clips L sr = Ok (VList (take (Z.to_nat L) (concat gs))).
Proof.
  intros HL (groups & Hd & Hgs).
  destruct Hgs as [|g cs groups gs Hg Hgs].
  - rewrite (processed_clips_flat L sr []) by (by split).
    unfold list_slice_to. simpl concat. by rewrite !take_nil.
  - unfold Server.processed_clips. fold (data_of sr). rewrite Hd.
    rewrite (grouped_is_grouped _ _ _ Hg). simpl py_iter.
    rewrite !result_bind_Ok.
    destruct (extend_groups_spec L (g :: groups) (cs :: gs)
                ltac:(by constructor) [] eq_refl) as (r & -> & _ & _ & Ht).
    rewrite !result_bind_Ok. simpl.
    by rewrite list_slice_to_nonneg, (Ht HL).
Qed.

(** Either shape, any limit: the selection returns clip records, in the
    order of the input. *)
Lemma processed_clips_total (L : Z) (sr : dict) (cs : list value) :
  result_clips sr cs →
  ∃ sel, Server.processed_clips L sr = Ok (VList sel) ∧
         forallb is_clip sel = true ∧ sel `sublist_of` cs.
Proof.
  intros [Hflat|(gs & (groups & Hd & Hgs) & ->)].
  - rewrite (processed_clips_flat L sr cs Hflat). destruct Hflat as [_ Hc].
    eexists; split_and!; [done| |].
    + by do 2 apply forallb_take.
    + etrans; apply sublist_take.
  - destruct Hgs as [|g c groups gs Hg Hgs].
    + rewrite (processed_clips_flat L sr []) by (by split).
      exists []. unfold list_slice_to. by rewrite !take_nil.
    + unfold Server.processed_clips. fold (data_of sr). rewrite Hd.
      rewrite (grouped_is_grouped _ _ _ Hg). simpl py_iter.
      rewrite !result_bind_Ok.
      destruct (extend_groups_spec L (g :: groups) (c :: gs)
                  ltac:(by constructor) [] eq_refl) as (r & -> & Hc & Hs & _).
      rewrite !result_bind_Ok. simpl. eexists; split_and!; [done| |].
      * by apply forallb_take.
      * etrans; [apply sublist_take | exact Hs].
Qed.

(** ** The download loop of [server.download_clips] *)

Section download_loop.
Context (w : world) (host_dir : string) (m3u8_url : value).

(** One turn of the loop, case by case *)
Lemma download_one_eq (i : nat) (d : dict) (acc : list value) (st : state) :
  Server.download_one w host_dir m3u8_url i (VDict d) acc st =
    if negb (has_times (VDict d)) then (Ok acc, st)
    else if negb (is_str m3u8_url)
    then (Raise (mk_exn TypeError ""), with_draw st)
    else
      let cmd := cmd_of w host_dir m3u8_url i d st in
      let out := transcoder w (spawned st) cmd in
      let st' := with_spawn (with_draw st) cmd out in
      match out with
      | SpawnError => (Raise (mk_exn OSError ""), st')
      | Exited code _ =>
          if (code =? 0)%Z
          then (Ok (acc ++ [Server.clip_entry i (dict_get d "start" VNone)
                              (dict_get d "end" VNone)
                              (Server.clip_path host_dir
                                 (String.substring 0 8 (uuid4 w (drawn st))) i)
                              (VDict d)]), st')
          else if stderr_utf8 w (spawned st) then (Ok acc, st')
          else (Raise (mk_exn UnicodeDecodeError ""), st')
      end.
Proof.
  unfold Server.download_one, has_times. simpl py_get.
  rewrite !M_bind_lift_Ok.
  destruct (is_None (dict_get d "start" VNone));
    destruct (is_None (dict_get d "end" VNone)); try reflexivity.
  unfold try_except, subprocess_run, spawn_and_wait, draw_uuid4, cmd_of,
    decode_stderr, with_spawn, with_draw, mbind, M_bind, mret, M_ret, raise,
    lift.
  cbn [orb andb negb forallb Server.ffmpeg_cmd arg_is_str spawned drawn
       files log].
  rewrite andb_true_r.
  destruct (is_str m3u8_url); cbn [negb]; [|reflexivity].
  destruct (transcoder _ _ _) as [|code wr]; [reflexivity|].
  destruct (code =? 0)%Z; [reflexivity|].
  cbn [catches exn_cls bool_decide decide_rel spawned pred].
  rewrite bool_decide_eq_true_2 by done. cbn [spawned pred].
  by destruct (stderr_utf8 w (spawned st)).
Qed.

Lemma download_one_not_dict (i : nat) (clip : value) (acc : list value)
    (st : state) :
  is_dict clip = false →
  Server.download_one w host_dir m3u8_url i clip acc st =
    (Raise (mk_exn AttributeError ""), st).
Proof. by destruct clip. Qed.

(** One turn that returns leaves a log of process events and adds to the
    report at most the entry of its clip, exactly when a process has
    exited with code 0. *)
Lemma download_one_sound (i : nat) (clip : value) (acc r : list value)
    (st st' : state) :
  Server.download_one w host_dir m3u8_url i clip acc st = (Ok r, st') →
  ∃ evs new,
    log st' = log st ++ evs ∧ forallb is_spawn evs = true ∧
    r = acc ++ new ∧
    length new = length (List.filter exited_zero evs) ∧
    (new = [] ∨
     ∃ path, has_times clip = true ∧
             new = [Server.clip_entry i (clip_start clip) (clip_end clip)
                      path clip]).
Proof.
  destruct (is_dict clip) eqn:Hd.
  2:{ by rewrite download_one_not_dict. }
  destruct clip as [| | | | | |d]; try discriminate.
  rewrite download_one_eq.
  destruct (has_times (VDict d)) eqn:Ht; cbn [negb].
  2:{ intros [= <- <-]. exists [], []. rewrite !app_nil_r.
      split_and!; auto. }
  destruct (is_str m3u8_url); cbn [negb]; [|done].
  cbv zeta. destruct (transcoder _ _ _) as [|code wr] eqn:Ho; [done|].
  destruct (code =? 0)%Z eqn:Hc.
  - intros [= <- <-]. eexists [Spawn _ (Exited code wr)], [_].
    split_and!; try reflexivity.
    + simpl. by rewrite Hc.
    + right. eauto.
  - destruct (stderr_utf8 w (spawned st)); [|done]. intros [= <- <-].
    exists [Spawn (cmd_of w host_dir m3u8_url i d st) (Exited code wr)], [].
    rewrite app_nil_r. split_and!; try reflexivity.
    + simpl. by rewrite Hc.
    + by left.
Qed.

(** The loop from index [length pre] on, when it returns *)
Lemma download_loop_sound (clips : list value) :
  ∀ (pre acc r : list value) (st st' : state),
  Server.download_loop w host_dir m3u8_url (length pre) clips acc st
    = (Ok r, st') →
  ∃ evs new,
    log st' = log st ++ evs ∧ forallb is_spawn evs = true ∧
    r = acc ++ new ∧
    length new = length (List.filter exited_zero evs) ∧
    Forall (entry_of (pre ++ clips)) new ∧
    map entry_clip new `sublist_of` clips.
Proof.
  induction clips as [|clip clips IH]; intros pre acc r st st'.
  - intros [= <- <-]. exists [], []. rewrite !app_nil_r.
    split_and!; done.
  - cbn [Server.download_loop]. rewrite M_bind_unfold.
    destruct (Server.download_one _ _ _ _ _ _ _) as [[r1|e] st1] eqn:H1;
      [|done].
    apply download_one_sound in H1
      as (evs1 & new1 & Hl1 & Hs1 & -> & Hn1 & Hnew1).
    replace (S (length pre)) with (length (pre ++ [clip]))
      by (rewrite length_app; simpl; lia).
    intros (evs2 & new2 & Hl2 & Hs2 & -> & Hn2 & Hof & Hsub)%IH.
    exists (evs1 ++ evs2), (new1 ++ new2).
    rewrite <- (assoc_L (++)) in Hof.
    split_and!.
    + by rewrite Hl2, Hl1, (assoc_L (++)).
    + by rewrite forallb_app, Hs1, Hs2.
    + by rewrite (assoc_L (++)).
    + rewrite List.filter_app, !length_app. lia.
    + apply Forall_app. split; [|done].
      destruct Hnew1 as [->|(path & Ht & ->)]; constructor; [|constructor].
      exists (length pre), clip, path. split_and!; [|done|done].
      by apply list_lookup_middle.
    + rewrite map_app.
      destruct Hnew1 as [->|(path & Ht & ->)].
      * by apply sublist_cons.
      * simpl. by apply sublist_skip.
Qed.

(** The loop returns when the manifest URL is a string, the clips are
    records, every transcoder process can be started and the stderr of
    each can be decoded. *)
Lemma download_loop_total (clips : list value) :
  is_str m3u8_url = true →
  (∀ k cmd, transcoder w k cmd ≠ SpawnError) →
  stderr_readable w →
  forallb is_clip clips = true →
  ∀ (i : nat) (acc : list value) (st : state),
  ∃ r st',
    Server.download_loop w host_dir m3u8_url i clips acc st = (Ok r, st').
Proof.
  intros Hu Hw He. induction clips as [|clip clips IH]; intros Hc i acc st.
  - by eexists _, _.
  - simpl in Hc. apply andb_true_iff in Hc as [Hclip Hc].
    destruct clip as [| | | | | |d]; try discriminate.
    cbn [Server.download_loop]. rewrite M_bind_unfold, download_one_eq.
    rewrite Hu. cbn [negb]. cbv zeta.
    destruct (has_times (VDict d)); cbn [negb]; [|by apply IH].
    destruct (transcoder _ _ _) as [|code wr] eqn:Ho; [by apply Hw in Ho|].
    rewrite He. destruct (code =? 0)%Z; by apply IH.
Qed.
End download_loop.

(** ** [server.download_clips] as a whole *)

Section download_clips.
Context (w : world).

Lemma download_clips_unconfigured (L : Z) (sr vi : dict) (st : state) :
  unconfigured w →
  Server.download_clips w L sr vi st =
    (Raise (mk_exn ValueError
              "TWELVELABS_MCP_BASE_PATH environment variable is required"),
     st).
Proof.
  unfold unconfigured, base_path_key, Server.download_clips, environ_get.
  rewrite M_bind_unfold. by intros [->| ->].
Qed.

Lemma download_clips_mkdir_fails (L : Z) (sr vi : dict) (st : state)
    (p : string) :
  environ w base_path_key = Some p → p ≠ "" →
  mkdir_ok w (abspath_expanduser w p) = false →
  Server.download_clips w L sr vi st = (Raise (mk_exn OSError ""), st).
Proof.
  unfold base_path_key, Server.download_clips, environ_get.
  rewrite M_bind_unfold. intros -> Hp Hm.
  destruct p; [done|]. rewrite M_bind_unfold. unfold mkdir. by rewrite Hm.
Qed.

(** With the directory configured, the run creates it and goes on. *)
Lemma download_clips_configured (L : Z) (sr vi : dict) (st : state)
    (dir : string) :
  configured w dir →
  Server.download_clips w L sr vi st =
    (missing ← lift (Server.no_hls_url vi);
     if missing : bool then mret Server.no_hls_error
     else
       hls ← lift (py_subscript (VDict vi) "hls");
       m3u8_url ← lift (py_subscript hls "video_url");
       processed ← lift (Server.processed_clips L sr);
       clips ← lift (py_iter processed);
       downloaded_clips ← Server.download_loop w dir m3u8_url 0 clips [];
       mret (Server.report L downloaded_clips)) (with_mkdir st dir).
Proof.
  intros (p & Hp & Hne & <- & Hm).
  unfold base_path_key in Hp. unfold Server.download_clips, environ_get.
  rewrite M_bind_unfold, Hp. destruct p; [done|].
  rewrite M_bind_unfold. unfold mkdir. by rewrite Hm.
Qed.

(** Whether the directory is configured or not is decided by the world. *)
Lemma configured_cases :
  unconfigured w ∨
  (∃ p, environ w base_path_key = Some p ∧ p ≠ "" ∧
        mkdir_ok w (abspath_expanduser w p) = false) ∨
  (∃ dir, configured w dir).
Proof.
  unfold unconfigured, configured.
  destruct (environ w base_path_key) as [p|] eqn:Hp; [|by left; left].
  destruct (decide (p = "")) as [->|Hne]; [by left; right|].
  destruct (mkdir_ok w (abspath_expanduser w p)) eqn:Hm.
  - right; right. by exists (abspath_expanduser w p), p.
  - right; left. by exists p.
Qed.

Lemma no_manifest_no_hls_url (vi : dict) :
  no_manifest vi = true → Server.no_hls_url vi = Ok true.
Proof.
  unfold no_manifest, Server.no_hls_url.
  destruct (dict_get vi "hls" VNone) as [| | | | | |hls]; try done.
  intros Hn. destruct (truthy (VDict hls)); [|done]. cbn [negb py_get].
  rewrite result_bind_Ok. by destruct (dict_get hls "video_url" VNone).
Qed.

Lemma manifest_url_hls (vi : dict) (url : string) :
  manifest_url vi url →
  Server.no_hls_url vi = Ok false ∧
  (py_subscript (VDict vi) "hls" ≫= fun hls => py_subscript hls "video_url")
    = Ok (VStr url).
Proof.
  intros (hls & Hh & Hu & Hne).
  unfold Server.no_hls_url, dict_get. simpl. rewrite Hh. simpl.
  destruct hls as [|kv hls]; [done|]. simpl length. simpl bool_decide.
  cbn [negb]. unfold dict_get. rewrite Hu. simpl.
  split; [|done]. destruct url; [done|reflexivity].
Qed.

(** What a run that returns has done. *)
Lemma download_clips_sound (L : Z) (sr vi : dict) (st st' : state)
    (r : value) :
  Server.download_clips w L sr vi st = (Ok r, st') →
  ∃ dir, configured w dir ∧
    ((Server.no_hls_url vi = Ok true ∧ r = Server.no_hls_error ∧
      st' = with_mkdir st dir) ∨
     (∃ processed clips evs downloaded,
        Server.no_hls_url vi = Ok false ∧
        Server.processed_clips L sr = Ok processed ∧
        py_iter processed = Ok clips ∧
        r = Server.report L downloaded ∧
        log st' = log st ++ Mkdir dir :: evs ∧
        forallb is_spawn evs = true ∧
        length downloaded = length (List.filter exited_zero evs) ∧
        Forall (entry_of clips) downloaded ∧
        map entry_clip downloaded `sublist_of` clips)).
Proof.
  destruct configured_cases as [Hu|[(p & Hp & Hne & Hm)|[dir Hc]]].
  { by rewrite download_clips_unconfigured. }
  { by rewrite (download_clips_mkdir_fails _ _ _ _ p). }
  rewrite (download_clips_configured _ _ _ _ dir Hc).
  intros H. exists dir. split; [done|].
  unfold lift in H. rewrite M_bind_unfold in H.
  destruct (Server.no_hls_url vi) as [[|]|e]; [left|right|done].
  { by injection H as <- <-. }
  rewrite M_bind_unfold in H.
  destruct (py_subscript (VDict vi) "hls") as [hls|]; [|done].
  rewrite M_bind_unfold in H.
  destruct (py_subscript hls "video_url") as [url|]; [|done].
  rewrite M_bind_unfold in H.
  destruct (Server.processed_clips L sr) as [processed|] eqn:Hp; [|done].
  rewrite M_bind_unfold in H.
  destruct (py_iter processed) as [clips|] eqn:Hi; [|done].
  rewrite M_bind_unfold in H.
  destruct (Server.download_loop _ _ _ _ _ _ _) as [[dl|] st1] eqn:Hloop;
    [|done].
  injection H as <- <-.
  apply (download_loop_sound w dir url clips []) in Hloop
    as (evs & new & Hlog & Hsp & -> & Hn & Hof & Hsub).
  exists processed, clips, evs, new. split_and!; try done.
  rewrite Hlog. simpl. by rewrite <- (assoc_L (++)).
Qed.
End download_clips.

Section runs.
Context (w : world).

(** With directory and manifest in place, the run is the loop over the
    selection followed by the report. *)
Lemma download_clips_runs (L : Z) (sr vi : dict) (st : state)
    (dir url : string) (sel : list value) :
  configured w dir → manifest_url vi url →
  Server.processed_clips L sr = Ok (VList sel) →
  Server.download_clips w L sr vi st =
    match Server.download_loop w dir (VStr url) 0 sel [] (with_mkdir st dir)
    with
    | (Ok downloaded, st') => (Ok (Server.report L downloaded), st')
    | (Raise e, st') => (Raise e, st')
    end.
Proof.
  intros Hc Hm Hp. rewrite (download_clips_configured w _ _ _ _ dir Hc).
  destruct (manifest_url_hls vi url Hm) as [Hno _].
  destruct Hm as (hls & Hh & Hu & _).
  unfold lift. rewrite M_bind_unfold, Hno. cbv iota beta.
  rewrite M_bind_unfold. cbn [py_subscript]. rewrite Hh. cbv iota beta.
  rewrite M_bind_unfold. cbn [py_subscript]. rewrite Hu. cbv iota beta.
  rewrite M_bind_unfold, Hp. cbv iota beta.
  rewrite M_bind_unfold. cbn [py_iter]. cbv iota beta.
  rewrite M_bind_unfold.
  by destruct (Server.download_loop _ _ _ _ _ _ _) as [[?|?] ?].
Qed.

(** When every process exits with code 0 the loop reports exactly the
    clips that have both timestamps. *)
Lemma download_loop_all_ok (dir url : string) (clips : list value) :
  always_succeeds w → forallb is_clip clips = true →
  ∀ (i : nat) (acc : list value) (st : state),
  ∃ new st',
    Server.download_loop w dir (VStr url) i clips acc st
      = (Ok (acc ++ new), st') ∧
    map entry_clip new = List.filter has_times clips.
Proof.
  intros Hw. induction clips as [|c clips IH]; intros Hc i acc st.
  - exists [], st. by rewrite app_nil_r.
  - simpl in Hc. apply andb_true_iff in Hc as [Hclip Hc].
    destruct c as [| | | | | |d]; try discriminate.
    cbn [Server.download_loop List.filter].
    rewrite M_bind_unfold, download_one_eq. cbn [is_str negb]. cbv zeta.
    destruct (has_times (VDict d)); cbn [negb].
    + destruct (Hw (spawned st) (cmd_of w dir (VStr url) i d st))
        as [wrote ->].
      change (0 =? 0)%Z with true. cbv iota.
      edestruct (IH Hc (S i)) as (new & st' & -> & Hnew).
      eexists (_ :: new), st'. rewrite <- (assoc_L (++)).
      split; [reflexivity|]. simpl. by rewrite Hnew.
    + by apply IH.
Qed.
End runs.

Lemma sublist_filter_all {A} (f : A → bool) (l k : list A) :
  l `sublist_of` k → forallb f l = true → l `sublist_of` List.filter f k.
Proof.
  induction 1 as [|x l k _ IH|x l k _ IH]; simpl.
  - done.
  - intros [Hx Hl]%andb_true_iff. rewrite Hx. by apply sublist_skip, IH.
  - intros Hl. destruct (f x); [apply sublist_cons|]; by apply IH.
Qed.

(** For a limit that is not negative, either shape gives the first [L]
    clips of the result. *)
Lemma processed_clips_prefix (L : Z) (sr : dict) (cs : list value) :
  (0 ≤ L)%Z → result_clips sr cs →
  Server.processed_clips L sr = Ok (VList (take (Z.to_nat L) cs)).
Proof.
  intros HL [Hflat|(gs & Hg & ->)].
  - rewrite (processed_clips_flat L sr cs Hflat).
    rewrite !list_slice_to_nonneg, take_take by done.
    by rewrite Nat.min_id.
  - by apply processed_clips_grouped.
Qed.

Lemma result_clips_are_clips (sr : dict) (cs : list value) :
  result_clips sr cs → forallb is_clip cs = true.
Proof.
  intros [[_ H]|(gs & (groups & _ & Hgs) & ->)]; [done|].
  induction Hgs as [|g c groups gs Hg _ IH]; [done|].
  simpl. rewrite forallb_app, IH, andb_true_r.
  apply group_clips_inv in Hg as (d & _ & [[_ ->]|[_ H]]); done.
Qed.

Lemma entry_of_has_times (sel : list value) (entry : value) :
  entry_of sel entry → has_times (entry_clip entry) = true.
Proof. by intros (j & c & path & _ & Ht & ->). Qed.

(** ** [utils.py] *)

(** The loop of [utils.download_clips] flattens its input when every
    item is a [SearchData] or the group class can be looked up, and raises
    [AttributeError] otherwise. *)
Lemma collect_flatten (group_class : bool) (data : list Utils.item) :
  ∀ acc,
  Utils.collect group_class data acc =
    if group_class || forallb is_search_data data
    then Ok (acc ++ concat (map item_clips data))
    else raise_cls AttributeError.
Proof.
  induction data as [|it data IH]; intros acc.
  - simpl. by rewrite orb_true_r, app_nil_r.
  - destruct it as [c|g|]; cbn [Utils.collect forallb is_search_data].
    + rewrite IH. cbn [andb map concat item_clips].
      by rewrite <- (assoc_L (++)).
    + rewrite andb_false_l, orb_false_r.
      destruct group_class; [|done]. rewrite IH. cbn [orb map concat].
      unfold Utils.has_clips, item_clips.
      destruct (Utils.clips g) as [[|c cs]|]; simpl;
        by rewrite ?app_nil_r, <- ?(assoc_L (++)).
    + rewrite andb_false_l, orb_false_r.
      destruct group_class; [|done]. by rewrite IH.
Qed.

Lemma clips_data_eq (group_class : bool) (data : list Utils.item) (L : Z) :
  Utils.clips_data group_class data L =
    if group_class || forallb is_search_data data
    then Ok (list_slice_to L (concat (map item_clips data)))
    else raise_cls AttributeError.
Proof.
  unfold Utils.clips_data. rewrite collect_flatten.
  by destruct (group_class || forallb is_search_data data).
Qed.

Lemma clips_data_classifiable (group_class : bool) (data : list Utils.item)
    (L : Z) :
  classifiable group_class data →
  Utils.clips_data group_class data L
    = Ok (list_slice_to L (concat (map item_clips data))).
Proof. intros H. rewrite clips_data_eq. unfold classifiable in H. by rewrite H. Qed.

Lemma forallb_is_search_data (ucs : list Utils.SearchData) :
  forallb is_search_data (map Utils.IsSearchData ucs) = true.
Proof. by induction ucs. Qed.

Lemma float_of_int_offset : Utils.float_of_int Utils.offset = 5%float.
Proof. vm_compute. reflexivity. Qed.

Lemma float_of_int_0 : Utils.float_of_int 0 = 0%float.
Proof. vm_compute. reflexivity. Qed.

Lemma plan_seek_eq (s e : float) :
  Utils.plan_seek s e =
    Ok {| Utils.duration := (e - s)%float;
          Utils.input_seek := Utils.max_0 (s - 5)%float;
          Utils.accurate_seek :=
            if (0 <? s - 5)%float then (s - (s - 5))%float
            else (s - 0)%float |}.
Proof.
  unfold Utils.plan_seek. cbn [Utils.float_sub]. rewrite !result_bind_Ok.
  rewrite float_of_int_offset. unfold Utils.max_0.
  destruct (0 <? s - 5)%float; cbn [Utils.float_sub];
    rewrite result_bind_Ok, ?float_of_int_0; reflexivity.
Qed.

Section download_clip.
Context (w : world).

Lemma download_clip_present (url : string) (s e : float) (out : string)
    (st : state) :
  out ∈ files st → Utils.download_clip w url s e out st = (Ok true, st).
Proof.
  intros Hin. unfold Utils.download_clip, path_exists.
  rewrite M_bind_unfold. by rewrite bool_decide_eq_true_2.
Qed.

(** A call that does not find the file starts the transcoder once. *)
Lemma download_clip_absent (url : string) (s e : float) (out : string)
    (st : state) (p : Utils.seek_plan) :
  out ∉ files st → Utils.plan_seek s e = Ok p →
  Utils.download_clip w url s e out st =
    let cmd := Utils.ffmpeg_cmd url p out in
    let o := transcoder w (spawned st) cmd in
    (Ok match o with Exited 0 _ => true | _ => false end,
     with_spawn st cmd o).
Proof.
  intros Hin Hp. unfold Utils.download_clip, path_exists.
  rewrite M_bind_unfold. rewrite bool_decide_eq_false_2 by done.
  unfold try_except, lift. rewrite M_bind_unfold, Hp.
  rewrite M_bind_unfold. unfold spawn_and_wait, with_spawn.
  cbn [forallb Utils.ffmpeg_cmd arg_is_str andb negb]. cbv zeta.
  destruct (transcoder _ _ _) as [|[|c|c] wr]; reflexivity.
Qed.
End download_clip.

(** * The claims *)

(** C1.  For every search result, flat or grouped, and every limit
    [L >= 0], the selection of [download_clips] returns at most [L] clip
    records, in the relative order they have in the input; the clips of
    the report, when the run returns one, are again at most [L] of them in
    that order. *)
Theorem selection_bounded_in_order (L : Z) (sr : dict) (cs : list value) :
  (0 ≤ L)%Z → result_clips sr cs →
  ∃ sel,
    Server.processed_clips L sr = Ok (VList sel) ∧
    (Z.of_nat (length sel) ≤ L)%Z ∧
    sel `sublist_of` cs ∧
    ∀ w vi st r st',
      Server.download_clips w L sr vi st = (Ok r, st') →
      r = Server.no_hls_error ∨
      ∃ downloaded,
        r = Server.report L downloaded ∧
        (Z.of_nat (length downloaded) ≤ L)%Z ∧
        map entry_clip downloaded `sublist_of` sel.
Proof.
  intros HL Hsr. exists (take (Z.to_nat L) cs).
  pose proof (processed_clips_prefix L sr cs HL Hsr) as Hp.
  assert (Hlen : (Z.of_nat (length (take (Z.to_nat L) cs)) ≤ L)%Z)
    by (rewrite length_take; lia).
  split_and!; [done|done|apply sublist_take|].
  intros w vi st r st' Hrun.
  apply download_clips_sound in Hrun as (dir & _ & [(_ & -> & _)|Hrun]);
    [by left|right].
  destruct Hrun as (processed & clips & evs & downloaded & _ & Hp' & Hi & ->
                    & _ & _ & _ & _ & Hsub).
  rewrite Hp in Hp'. injection Hp' as <-. injection Hi as <-.
  exists downloaded. split_and!; [done| |done].
  apply sublist_length in Hsub. rewrite length_map in Hsub. lia.
Qed.

Lemma selection_bounded_in_order_witness :
  ∃ sel,
    Server.processed_clips 2 (flat_of five_clips) = Ok (VList sel) ∧
    (Z.of_nat (length sel) ≤ 2)%Z ∧ sel `sublist_of` five_clips.
Proof.
  destruct (selection_bounded_in_order 2 (flat_of five_clips) five_clips)
    as (sel & H1 & H2 & H3 & _).
  - lia.
  - left. split; reflexivity.
  - exists sel. auto.
Defined.

(** C2, as stated, fails: with the limit 1, a first entry without an end
    timestamp takes the only slot and the well-formed second entry is not
    downloaded. *)
Lemma dropped_entries_take_slots :
  ¬ dropped_entries_free_slots world_all_ok 1
      (flat_of [clip_without_end 1; clip 3 4]) video_with_hls st0
      [clip_without_end 1; clip 3 4].
Proof.
  intros (downloaded & st' & Hrun & Hmap).
  apply (f_equal fst) in Hrun. vm_compute in Hrun.
  injection Hrun as _ <-. discriminate Hmap.
Qed.

(** C2, amended.  Entries without a start or without an end never appear
    in the report, and they are dropped after the selection has been cut
    to [L]: the report holds, in order, clips with both timestamps among
    the first [L] of the result, and exactly those when every transcoder
    process exits with code 0. *)
Theorem missing_timestamps_dropped_after_cut (w : world) (L : Z)
    (sr vi : dict) (st : state) (cs : list value) :
  (0 ≤ L)%Z → result_clips sr cs →
  (∀ r st',
     Server.download_clips w L sr vi st = (Ok r, st') →
     r = Server.no_hls_error ∨
     ∃ downloaded,
       r = Server.report L downloaded ∧
       forallb has_times (map entry_clip downloaded) = true ∧
       map entry_clip downloaded
         `sublist_of` List.filter has_times (take (Z.to_nat L) cs)) ∧
  (∀ dir url,
     configured w dir → manifest_url vi url → always_succeeds w →
     ∃ downloaded st',
       Server.download_clips w L sr vi st
         = (Ok (Server.report L downloaded), st') ∧
       map entry_clip downloaded
         = List.filter has_times (take (Z.to_nat L) cs)).
Proof.
  intros HL Hsr.
  pose proof (processed_clips_prefix L sr cs HL Hsr) as Hp. split.
  - intros r st' Hrun.
    apply download_clips_sound in Hrun as (dir & _ & [(_ & -> & _)|Hrun]);
      [by left|right].
    destruct Hrun as (processed & clips & evs & downloaded & _ & Hp' & Hi & ->
                      & _ & _ & _ & Hof & Hsub).
    rewrite Hp in Hp'. injection Hp' as <-. injection Hi as <-.
    exists downloaded.
    assert (Ht : forallb has_times (map entry_clip downloaded) = true).
    { apply forallb_forall. intros c (e & <- & He)%in_map_iff.
      apply list_elem_of_In in He.
      eapply entry_of_has_times, Forall_forall; eauto. }
    split_and!; [done|done|]. by apply sublist_filter_all.
  - intros dir url Hc Hm Hw.
    rewrite (download_clips_runs w L sr vi st dir url _ Hc Hm Hp).
    destruct (download_loop_all_ok w dir url (take (Z.to_nat L) cs) Hw)
      with (i := 0) (acc := @nil value) (st := with_mkdir st dir)
      as (new & st' & -> & Hnew).
    { apply forallb_take. by apply (result_clips_are_clips sr). }
    by exists new, st'.
Qed.

Lemma missing_timestamps_dropped_after_cut_witness :
  ∃ downloaded st',
    Server.download_clips world_all_ok 1
      (flat_of [clip_without_end 1; clip 3 4]) video_with_hls st0
      = (Ok (Server.report 1 downloaded), st') ∧
    map entry_clip downloaded = [].
Proof.
  destruct (missing_timestamps_dropped_after_cut world_all_ok 1
              (flat_of [clip_without_end 1; clip 3 4]) video_with_hls st0
              [clip_without_end 1; clip 3 4]) as [_ H].
  - lia.
  - left. split; reflexivity.
  - apply (H "/home/user/clips" "https://cdn.example/v1.m3u8").
    + exists "~/clips". split_and!; [reflexivity|done|reflexivity|reflexivity].
    + eexists. split_and!; [reflexivity|reflexivity|done].
    + intros k cmd. by exists true.
Defined.

Lemma no_transcoder_refl (st : state) : no_transcoder st st.
Proof. by split. Qed.

Lemma no_transcoder_mkdir (st : state) (dir : string) :
  no_transcoder st (with_mkdir st dir).
Proof.
  split; [done|]. simpl. rewrite List.filter_app. simpl. by rewrite app_nil_r.
Qed.

(** Directory configured, manifest missing: the structured error, after
    the directory has been created. *)
Lemma missing_manifest_error_run (w : world) (L : Z) (sr vi : dict)
    (st : state) (dir : string) :
  configured w dir → no_manifest vi = true →
  Server.download_clips w L sr vi st
    = (Ok Server.no_hls_error, with_mkdir st dir) ∧
  Server.no_hls_url vi = Ok true.
Proof.
  intros Hc Hno. rewrite (download_clips_configured w _ _ _ _ dir Hc).
  unfold lift. by rewrite M_bind_unfold, (no_manifest_no_hls_url vi Hno).
Qed.

(** C3, as stated, fails: when no output directory is configured the tool
    raises [ValueError] before it looks at [video_info], and returns no
    structured error. *)
Lemma missing_manifest_unconfigured_raises :
  ¬ error_without_transcoder world_unconfigured 5 (flat_of five_clips)
      video_without_hls st0.
Proof.
  intros H. destruct (H eq_refl) as (st' & Hrun & _).
  rewrite download_clips_unconfigured in Hrun by (by left).
  discriminate Hrun.
Qed.

(** C3, amended.  If [video_info] has no HLS manifest URL, [download_clips]
    starts no transcoder process, whatever it returns; and when the output
    directory is configured and can be created it returns the structured
    error. *)
Theorem missing_manifest_error (w : world) (L : Z) (sr vi : dict)
    (st : state) :
  no_manifest vi = true →
  no_transcoder st (snd (Server.download_clips w L sr vi st)) ∧
  ∀ dir, configured w dir →
    Server.download_clips w L sr vi st =
      (Ok (VDict [("status", VStr "error");
                  ("message", VStr "No HLS video URL found in video_info")]),
       with_mkdir st dir).
Proof.
  intros Hno.
  assert (Hc : ∀ dir, configured w dir →
            Server.download_clips w L sr vi st
              = (Ok Server.no_hls_error, with_mkdir st dir)).
  { intros dir Hc. by apply missing_manifest_error_run. }
  split; [|exact Hc].
  destruct (configured_cases w) as [Hu|[(p & Hp & Hne & Hm)|[dir Hd]]].
  - rewrite download_clips_unconfigured by done. apply no_transcoder_refl.
  - rewrite (download_clips_mkdir_fails w _ _ _ _ p) by done.
    apply no_transcoder_refl.
  - rewrite (Hc dir Hd). apply no_transcoder_mkdir.
Qed.

Lemma missing_manifest_error_witness :
  no_transcoder st0
    (snd (Server.download_clips world_all_ok 5 (flat_of five_clips)
            video_without_hls st0)) ∧
  fst (Server.download_clips world_all_ok 5 (flat_of five_clips)
         video_without_hls st0) = Ok Server.no_hls_error.
Proof.
  destruct (missing_manifest_error world_all_ok 5 (flat_of five_clips)
              video_without_hls st0 eq_refl) as [Hn Hc].
  split; [exact Hn|].
  rewrite (Hc "/home/user/clips"); [reflexivity|].
  exists "~/clips". split_and!; [reflexivity|done|reflexivity|reflexivity].
Defined.

(** C4, as stated, fails: [download_clips] without a configured output
    directory raises [ValueError] to its caller. *)
Lemma download_clips_raises_unconfigured :
  ¬ tools_never_raise world_unconfigured.
Proof.
  intros (_ & _ & H). destruct (H 5%Z [] [] st0) as (v & st' & Hrun).
  rewrite download_clips_unconfigured in Hrun by (by left).
  discriminate Hrun.
Qed.

(** C4, amended.  [retrieve_video] and [search] let no exception out: a
    failure of the backing API becomes [None], respectively the structured
    error with the message of the exception.  [download_clips] without a
    configured output directory raises [ValueError] and does nothing
    else. *)
Theorem tool_boundaries (w : world) :
  (∀ index_id id st,
     Server.retrieve_video w index_id id st =
       (Ok match video_retrieve w index_id id with
           | Ok v => v
           | Raise _ => VNone
           end, st)) ∧
  (∀ index_id a1 a2 a3 a4 a5 a6 a7 a8 a9 a10 a11 a12 st,
     ∃ params,
       Server.search w index_id a1 a2 a3 a4 a5 a6 a7 a8 a9 a10 a11 a12 st =
         (Ok match search_query w params with
             | Ok v => v
             | Raise e => VDict [("status", VStr "error");
                                 ("message", VStr (exn_msg e))]
             end, st)) ∧
  (∀ L sr vi st,
     unconfigured w →
     Server.download_clips w L sr vi st =
       (Raise (mk_exn ValueError
                 "TWELVELABS_MCP_BASE_PATH environment variable is required"),
        st)).
Proof.
  split_and!.
  - intros index_id id st. unfold Server.retrieve_video, try_except, lift.
    by destruct (video_retrieve w index_id id).
  - intros. unfold Server.search, try_except, lift. cbv zeta.
    match goal with
    | |- context [search_query w ?p] =>
        exists p; by destruct (search_query w p)
    end.
  - intros L sr vi st Hu. by apply download_clips_unconfigured.
Qed.

Lemma tool_boundaries_witness :
  Server.retrieve_video world_unconfigured "idx" "v1" st0 = (Ok VNone, st0) ∧
  fst (Server.download_clips world_unconfigured 5 (flat_of five_clips)
         video_with_hls st0)
    = Raise (mk_exn ValueError
               "TWELVELABS_MCP_BASE_PATH environment variable is required").
Proof.
  destruct (tool_boundaries world_unconfigured) as (Hr & _ & Hd).
  split; [apply Hr|]. rewrite Hd; [reflexivity|by left].
Defined.

(** C5 fails on the code.  A transcoder process that exits with a nonzero
    code is meant to cost only its clip, but the handler that is to log it
    decodes the captured stderr, and when that is not UTF-8 the decoding
    raises from inside the handler: [download_clips] then raises
    [UnicodeDecodeError] to its caller after this one process, returns no
    report and starts no transcoder for the clips that follow. *)
Theorem nonzero_exit_undecodable_stderr_raises (w : world) (L : Z)
    (sr vi : dict) (st : state) (dir url : string) (c : value)
    (rest : list value) (code : Z) (wrote : bool) :
  configured w dir → manifest_url vi url →
  flat_result sr (c :: rest) → has_times c = true → (1 ≤ L)%Z →
  (∀ cmd, transcoder w (spawned st) cmd = Exited code wrote) →
  code ≠ 0%Z → stderr_utf8 w (spawned st) = false →
  ∃ st',
    Server.download_clips w L sr vi st
      = (Raise (mk_exn UnicodeDecodeError ""), st') ∧
    spawned st' = S (spawned st) ∧
    List.filter is_spawn (log st')
      = List.filter is_spawn (log st)
        ++ [Spawn (Server.ffmpeg_cmd (clip_start c) (clip_end c) (VStr url)
                     (Server.clip_path dir
                        (String.substring 0 8 (uuid4 w (drawn st))) 0))
              (Exited code wrote)].
Proof.
  intros Hc Hm Hf Ht HL Ho Hcode He.
  assert (Hsel : ∃ sel, Server.processed_clips L sr = Ok (VList (c :: sel))).
  { rewrite (processed_clips_prefix L sr (c :: rest)) by (lia || by left).
    destruct (Z.to_nat L) as [|n] eqn:Hn; [lia|]. by eexists. }
  destruct Hsel as [sel Hsel].
  rewrite (download_clips_runs w L sr vi st dir url _ Hc Hm Hsel).
  destruct Hf as [_ Hclip]. simpl in Hclip.
  apply andb_true_iff in Hclip as [Hclip _].
  destruct c as [| | | | | |d]; try discriminate.
  cbn [Server.download_loop]. rewrite M_bind_unfold, download_one_eq.
  rewrite Ht. cbn [negb is_str]. cbv zeta.
  cbn [with_mkdir spawned drawn]. rewrite Ho.
  rewrite (proj2 (Z.eqb_neq code 0)) by done. rewrite He.
  eexists. split; [reflexivity|]. split; [reflexivity|].
  cbn [with_spawn with_draw with_mkdir log]. rewrite !List.filter_app.
  simpl. by rewrite app_nil_r.
Qed.

Lemma nonzero_exit_undecodable_stderr_raises_witness :
  ∃ st',
    Server.download_clips world_undecodable 5 (flat_of five_clips)
      video_with_hls st0 = (Raise (mk_exn UnicodeDecodeError ""), st') ∧
    spawned st' = 1.
Proof.
  destruct (nonzero_exit_undecodable_stderr_raises world_undecodable 5
              (flat_of five_clips) video_with_hls st0 "/home/user/clips"
              "https://cdn.example/v1.m3u8" (clip 1 2)
              [clip 3 4; clip 5 6; clip 7 8; clip 9 10] 1 false)
    as (st' & Hrun & Hs & _).
  - exists "~/clips". split_and!; [reflexivity|done|reflexivity|reflexivity].
  - eexists. split_and!; [reflexivity|reflexivity|done].
  - split; reflexivity.
  - reflexivity.
  - lia.
  - reflexivity.
  - done.
  - reflexivity.
  - exists st'. split; [exact Hrun|exact Hs].
Defined.

(** The run of the specification's example: five clips requested, the
    second and the fourth transcoder process fail, three clips are
    reported, at the indices 0, 2 and 4. *)
Example five_requested_two_fail :
  fst (Server.download_clips world_two_fail 5 (flat_of five_clips)
         video_with_hls st0) =
  Ok (Server.report 5
        [Server.clip_entry 0 (VInt 1) (VInt 2)
           "/home/user/clips/clip_4f9c2e7a_0.mp4" (clip 1 2);
         Server.clip_entry 2 (VInt 5) (VInt 6)
           "/home/user/clips/clip_4f9c2e7a_2.mp4" (clip 5 6);
         Server.clip_entry 4 (VInt 9) (VInt 10)
           "/home/user/clips/clip_4f9c2e7a_4.mp4" (clip 9 10)]).
Proof. vm_compute. reflexivity. Qed.

(** C6.  The two-stage seek of [download_clip]: for every start and end
    (so for every end > start) the duration is [end - start], the seek
    before the input is [max(0, start - 5)], the seek after the input is
    [start - input_seek], and these are the second, fourth and fifth
    arguments of the command line.  With start 10 and end 15 they are 5, 5
    and 5; with start 2 and end 8 they are 0, 2 and 6. *)
Theorem two_stage_seek (s e : float) :
  (∃ p, Utils.plan_seek s e = Ok p ∧
        Utils.duration p = (e - s)%float ∧
        Utils.input_seek p =
          (if (0 <? s - 5)%float then VFloat (s - 5) else VInt 0) ∧
        Utils.float_sub s (Utils.input_seek p) = Ok (Utils.accurate_seek p) ∧
        Utils.accurate_seek p =
          (if (0 <? s - 5)%float then s - (s - 5) else s - 0)%float ∧
        ∀ url out,
          Utils.ffmpeg_cmd url p out !! 2 = Some (StrOf (Utils.input_seek p)) ∧
          Utils.ffmpeg_cmd url p out !! 6
            = Some (StrOf (VFloat (Utils.accurate_seek p))) ∧
          Utils.ffmpeg_cmd url p out !! 8
            = Some (StrOf (VFloat (Utils.duration p)))) ∧
  Utils.plan_seek 10 15 =
    Ok {| Utils.duration := 5; Utils.input_seek := VFloat 5;
          Utils.accurate_seek := 5 |} ∧
  Utils.plan_seek 2 8 =
    Ok {| Utils.duration := 6; Utils.input_seek := VInt 0;
          Utils.accurate_seek := 2 |}.
Proof.
  split_and!; [|vm_compute; reflexivity..].
  eexists. split; [apply plan_seek_eq|].
  cbn [Utils.duration Utils.input_seek Utils.accurate_seek].
  split_and!; [reflexivity|reflexivity| |reflexivity|by intros].
  unfold Utils.max_0. destruct (0 <? s - 5)%float; cbn [Utils.float_sub];
    by rewrite ?float_of_int_0.
Qed.

(** C7, as stated, fails: when the transcoder of the first call exits with
    code 1 and leaves no file, the second call starts it again. *)
Lemma second_call_starts_transcoder_again :
  ¬ second_call_skips world_failing "https://cdn.example/v1.mp4" 10 15
      "/tmp/twelvelabs_clips/clip_1_v1_10.00_15.00.mp4" st0.
Proof. vm_compute. intros (H & _). discriminate H. Qed.

(** C7, amended.  If the destination file exists after the first call,
    which is exactly when it existed before or the transcoder of the first
    call wrote it, the second call on the same arguments finds it, returns
    [True] and starts no transcoder, so that the two calls start at most
    one. *)
Theorem second_call_finds_file (w : world) (url : string) (s e : float)
    (out : string) (st : state) :
  let st1 := snd (Utils.download_clip w url s e out st) in
  let written :=
    ∃ p code,
      Utils.plan_seek s e = Ok p ∧
      transcoder w (spawned st) (Utils.ffmpeg_cmd url p out)
        = Exited code true in
  (out ∈ files st1 ↔ out ∈ files st ∨ written) ∧
  (out ∈ files st1 →
   Utils.download_clip w url s e out st1 = (Ok true, st1)) ∧
  (out ∈ files st ∨ written →
   Utils.download_clip w url s e out st1 = (Ok true, st1) ∧
   spawned (snd (Utils.download_clip w url s e out st1)) ≤ S (spawned st)) ∧
  spawned st1 ≤ S (spawned st).
Proof.
  intros st1 written.
  assert (Hiff : out ∈ files st1 ↔ out ∈ files st ∨ written).
  { subst st1 written. destruct (decide (out ∈ files st)) as [Hst|Hst].
    { rewrite download_clip_present by done. simpl. tauto. }
    rewrite (download_clip_absent w url s e out st _ Hst (plan_seek_eq s e)).
    cbv zeta. cbn [snd with_spawn files]. split.
    - destruct (transcoder _ _ _) as [|code [|]] eqn:Ho; [done| |done].
      intros _. right. eexists _, code. split; [apply plan_seek_eq|done].
    - intros [?|(p & code & Hp & Ho)]; [done|].
      rewrite plan_seek_eq in Hp. injection Hp as <-. rewrite Ho.
      unfold output_of. simpl last. set_solver. }
  assert (Hsp : spawned st1 ≤ S (spawned st)).
  { subst st1. destruct (decide (out ∈ files st)) as [Hst|Hst].
    - rewrite download_clip_present by done. simpl. lia.
    - rewrite (download_clip_absent w url s e out st _ Hst
                 (plan_seek_eq s e)). simpl. lia. }
  split_and!; [done|by apply download_clip_present| |done].
  intros Hin%Hiff. rewrite download_clip_present by done. by split.
Qed.

Lemma second_call_finds_file_witness :
  Utils.download_clip world_all_ok "https://cdn.example/v1.mp4" 10 15
    "/tmp/clip.mp4"
    (snd (Utils.download_clip world_all_ok "https://cdn.example/v1.mp4"
            10 15 "/tmp/clip.mp4" st0))
  = (Ok true,
     snd (Utils.download_clip world_all_ok "https://cdn.example/v1.mp4"
            10 15 "/tmp/clip.mp4" st0)).
Proof.
  refine (proj1 (proj1 (proj2 (proj2
            (second_call_finds_file world_all_ok
               "https://cdn.example/v1.mp4" 10 15 "/tmp/clip.mp4" st0))) _)).
  right. eexists _, 0%Z. split; [apply plan_seek_eq|reflexivity].
Defined.

(** C8, as stated, fails: with the limit -1 the flat result loses its last
    two clips, and the grouped result keeps only the first clip of its
    first group. *)
Lemma shapes_differ_on_negative_limit :
  ¬ shape_invariant (-1)
      (flat_of [clip 1 2; clip 3 4; clip 5 6; clip 7 8])
      (flat_of [group [clip 1 2; clip 3 4; clip 5 6]; group [clip 7 8]]).
Proof.
  intros H.
  specialize (H [clip 1 2; clip 3 4; clip 5 6; clip 7 8]
                [[clip 1 2; clip 3 4; clip 5 6]; [clip 7 8]]).
  assert (Hne : Server.processed_clips (-1)
                  (flat_of [clip 1 2; clip 3 4; clip 5 6; clip 7 8]) ≠
                Server.processed_clips (-1)
                  (flat_of [group [clip 1 2; clip 3 4; clip 5 6];
                            group [clip 7 8]]))
    by (vm_compute; discriminate).
  apply Hne, H.
  - split; reflexivity.
  - eexists. split; [reflexivity|]. repeat constructor.
  - reflexivity.
Qed.

Lemma flatten_flat (ucs : list Utils.SearchData) :
  concat (map item_clips (map Utils.IsSearchData ucs)) = ucs.
Proof. induction ucs as [|c ucs IH]; simpl; by rewrite ?IH. Qed.

Lemma flatten_groups (ugs : list Utils.GroupByVideoSearchData) :
  concat (map item_clips (map Utils.IsGroupByVideoSearchData ugs)) =
  concat (map (fun g => default [] (Utils.clips g)) ugs).
Proof. induction ugs as [|g ugs IH]; simpl; by rewrite ?IH. Qed.

(** C8, amended.  For every limit [L >= 0], a flat and a grouped search
    result that hold the same clip records in the same order give the same
    selection in [server.download_clips], the first [L] of these records.
    In [utils.download_clips] the flat result gives its clips cut by the
    limit, under every limit; the grouped result gives the same selection
    when [twelvelabs.models] has the class that line 28 looks up, and
    raises [AttributeError] at that line when it has not and there is a
    group. *)
Theorem shape_invariance (L : Z) (flat grouped : dict) (cs : list value)
    (gs : list (list value)) :
  (0 ≤ L)%Z → flat_result flat cs → grouped_result grouped gs →
  concat gs = cs →
  Server.processed_clips L flat = Server.processed_clips L grouped ∧
  Server.processed_clips L flat = Ok (VList (take (Z.to_nat L) cs)) ∧
  ∀ (N : Z) (ucs : list Utils.SearchData)
    (ugs : list Utils.GroupByVideoSearchData),
    concat (map (fun g => default [] (Utils.clips g)) ugs) = ucs →
    (∀ group_class,
       Utils.clips_data group_class (map Utils.IsSearchData ucs) N
         = Ok (list_slice_to N ucs)) ∧
    Utils.clips_data true (map Utils.IsGroupByVideoSearchData ugs) N
      = Ok (list_slice_to N ucs) ∧
    (ugs ≠ [] →
     Utils.clips_data false (map Utils.IsGroupByVideoSearchData ugs) N
       = Raise (mk_exn AttributeError "")).
Proof.
  intros HL Hf Hg Hcs.
  rewrite (processed_clips_prefix L flat cs) by (done || by left).
  rewrite (processed_clips_prefix L grouped cs) by (done || right; eauto).
  split_and!; [done|done|].
  intros N ucs ugs Hu. split_and!.
  - intros gc. rewrite clips_data_eq.
    by rewrite forallb_is_search_data, orb_true_r, flatten_flat.
  - rewrite clips_data_eq. cbn [orb]. by rewrite flatten_groups, Hu.
  - intros Hne. rewrite clips_data_eq. by destruct ugs.
Qed.

Lemma shape_invariance_witness :
  Server.processed_clips 3
    (flat_of [clip 1 2; clip 3 4; clip 5 6; clip 7 8]) =
  Server.processed_clips 3
    (flat_of [group [clip 1 2; clip 3 4]; group [clip 5 6; clip 7 8]]).
Proof.
  refine (proj1 (shape_invariance 3 _ _
                   [clip 1 2; clip 3 4; clip 5 6; clip 7 8]
                   [[clip 1 2; clip 3 4]; [clip 5 6; clip 7 8]] _ _ _ _)).
  - lia.
  - split; reflexivity.
  - eexists. split; [reflexivity|]. repeat constructor.
  - reflexivity.
Defined.

(** C9.  [download_clips] resolves and creates the output directory before
    it looks for the manifest URL: when it returns the missing-manifest
    error, the directory exists and its creation is the one effect of the
    call, no transcoder having been started. *)
Theorem directory_created_before_manifest_check (w : world) (L : Z)
    (sr vi : dict) (st : state) (dir : string) :
  configured w dir → no_manifest vi = true →
  ∃ st',
    Server.download_clips w L sr vi st = (Ok Server.no_hls_error, st') ∧
    dir ∈ files st' ∧
    log st' = log st ++ [Mkdir dir] ∧
    no_transcoder st st' ∧
    ∀ vi' st'',
      Server.download_clips w L sr vi' st = (Ok Server.no_hls_error, st'') →
      st'' = st'.
Proof.
  intros Hc Hno. exists (with_mkdir st dir).
  destruct (missing_manifest_error_run w L sr vi st dir Hc Hno) as [-> _].
  split_and!; [done| |done|apply no_transcoder_mkdir|].
  - simpl. set_solver.
  - intros vi' st'' Hrun.
    apply download_clips_sound in Hrun as (dir' & Hc' & [(_ & _ & ->)|Hrun]).
    + destruct Hc as (p & Hp & _ & <- & _), Hc' as (p' & Hp' & _ & <- & _).
      rewrite Hp in Hp'. by injection Hp' as <-.
    + by destruct Hrun as (? & ? & ? & ? & _ & _ & _ & [=] & _).
Qed.

Lemma directory_created_before_manifest_check_witness :
  ∃ st',
    Server.download_clips world_all_ok 5 (flat_of five_clips)
      video_without_hls st0 = (Ok Server.no_hls_error, st') ∧
    "/home/user/clips" ∈ files st' ∧
    log st' = [Mkdir "/home/user/clips"].
Proof.
  destruct (directory_created_before_manifest_check world_all_ok 5
              (flat_of five_clips) video_without_hls st0 "/home/user/clips")
    as (st' & H1 & H2 & H3 & _).
  - exists "~/clips". split_and!; [reflexivity|done|reflexivity|reflexivity].
  - reflexivity.
  - exists st'. auto.
Defined.

(** C10.  [utils.download_clip] always returns a boolean: [True] when the
    output file is already there or the transcoder exits with code 0,
    [False] otherwise, also when the transcoder process cannot be started,
    the exception being caught by the handler. *)
Theorem download_clip_returns_bool (w : world) (url : string) (s e : float)
    (out : string) (st : state) :
  ∃ (b : bool) (st' : state) (p : Utils.seek_plan),
    Utils.plan_seek s e = Ok p ∧
    Utils.download_clip w url s e out st = (Ok b, st') ∧
    (b = true ↔
       out ∈ files st ∨
       ∃ wrote, transcoder w (spawned st) (Utils.ffmpeg_cmd url p out)
                  = Exited 0 wrote) ∧
    (out ∉ files st →
     transcoder w (spawned st) (Utils.ffmpeg_cmd url p out) = SpawnError →
     b = false).
Proof.
  destruct (decide (out ∈ files st)) as [Hst|Hst].
  - exists true, st. eexists. split; [apply plan_seek_eq|].
    rewrite download_clip_present by done. split_and!; [done| |done].
    split; auto.
  - eexists _, _, _. split; [apply plan_seek_eq|].
    rewrite (download_clip_absent w url s e out st _ Hst (plan_seek_eq s e)).
    cbv zeta. split_and!; [reflexivity| |by intros _ ->].
    destruct (transcoder _ _ _) as [|[|c|c] wrote]; split;
      try done; try (intros [?|[? [=]]]; done).
    intros _. right. eauto.
Qed.
(** * Further properties *)

(** ** Dictionaries *)

Lemma dict_lookup_set (k k' : string) (v : value) (d : dict) :
  dict_lookup k (dict_set d k' v) =
    if String.eqb k k' then Some v else dict_lookup k d.
Proof.
  induction d as [|[k'' v''] d IH]; simpl; [done|].
  destruct (String.eqb_spec k' k'') as [->|Hne]; simpl.
  - by destruct (String.eqb k k'').
  - rewrite IH. destruct (String.eqb_spec k k') as [->|]; [|done].
    by rewrite (proj2 (String.eqb_neq k' k'')).
Qed.

Lemma dict_lookup_set_if (c : bool) (k k' : string) (v : value) (d : dict) :
  dict_lookup k (Server.set_if c k' v d) =
    if c && String.eqb k k' then Some v else dict_lookup k d.
Proof.
  unfold Server.set_if. destruct c; [|done]. apply dict_lookup_set.
Qed.

Lemma dict_set_keys (k : string) (v : value) (d : dict) :
  map fst (dict_set d k v) =
    if bool_decide (k ∈ map fst d) then map fst d else map fst d ++ [k].
Proof.
  induction d as [|[k' v'] d IH]; simpl; [done|].
  destruct (String.eqb_spec k k') as [->|Hne]; simpl.
  - rewrite bool_decide_eq_true_2; [done|]. apply list_elem_of_here.
  - rewrite IH. destruct (decide (k ∈ map fst d)) as [Hin|Hin].
    + rewrite !bool_decide_eq_true_2; auto using list_elem_of_further.
    + rewrite (bool_decide_eq_false_2 _ Hin).
      rewrite bool_decide_eq_false_2; [done|].
      by intros [?|?]%elem_of_cons.
Qed.

Lemma dict_set_NoDup (k : string) (v : value) (d : dict) :
  NoDup (map fst d) → NoDup (map fst (dict_set d k v)).
Proof.
  intros Hd. rewrite dict_set_keys. case_bool_decide; [done|].
  apply NoDup_app. split_and!; [done| |apply NoDup_singleton].
  intros x Hx ->%list_elem_of_singleton. done.
Qed.

Lemma set_if_NoDup (c : bool) (k : string) (v : value) (d : dict) :
  NoDup (map fst d) → NoDup (map fst (Server.set_if c k v d)).
Proof. destruct c; [apply dict_set_NoDup|done]. Qed.

(** X1.  [search] passes to the backing API the index id and exactly the
    optional parameters that are set: each is sent, with the value given,
    when its argument is truthy ([adjust_confidence_level] when it is not
    [None], so also at 0), [query_media_type] goes with [query_media_url],
    and no keyword is sent twice; [num_clips] is not sent. *)
Theorem search_sends_what_is_set (w : world) (index_id : string)
    (options query_text query_media_url query_media_type
     adjust_confidence_level group_by threshold sort_option operator
     page_limit filter num_clips : value) (st : state) :
  let params := search_params index_id options query_text query_media_url
                  query_media_type adjust_confidence_level group_by
                  threshold sort_option operator page_limit filter in
  Server.search w index_id options query_text query_media_url
      query_media_type adjust_confidence_level group_by threshold
      sort_option operator page_limit filter num_clips st =
    (Ok match search_query w params with
        | Ok v => v
        | Raise e => VDict [("status", VStr "error");
                            ("message", VStr (exn_msg e))]
        end, st) ∧
  NoDup (map fst params) ∧
  dict_lookup "index_id" params = Some (VStr index_id) ∧
  dict_lookup "query_text" params = sent_if (truthy query_text) query_text ∧
  dict_lookup "query_media_url" params
    = sent_if (truthy query_media_url) query_media_url ∧
  dict_lookup "query_media_type" params
    = sent_if (truthy query_media_url) query_media_type ∧
  dict_lookup "options" params = sent_if (truthy options) options ∧
  dict_lookup "adjust_confidence_level" params
    = sent_if (negb (is_None adjust_confidence_level))
        adjust_confidence_level ∧
  dict_lookup "group_by" params = sent_if (truthy group_by) group_by ∧
  dict_lookup "threshold" params = sent_if (truthy threshold) threshold ∧
  dict_lookup "sort_option" params
    = sent_if (truthy sort_option) sort_option ∧
  dict_lookup "operator" params = sent_if (truthy operator) operator ∧
  dict_lookup "page_limit" params = sent_if (truthy page_limit) page_limit ∧
  dict_lookup "filter" params = sent_if (truthy filter) filter ∧
  dict_lookup "num_clips" params = None.
Proof.
  intros params. split.
  { unfold Server.search, try_except, lift. cbv zeta.
    fold (search_params index_id options query_text query_media_url
            query_media_type adjust_confidence_level group_by
            threshold sort_option operator page_limit filter).
    fold params. by destruct (search_query w params). }
  split.
  { subst params. unfold search_params. cbv zeta.
    repeat apply set_if_NoDup.
    destruct (truthy query_media_url); repeat apply dict_set_NoDup;
      apply set_if_NoDup; simpl; apply NoDup_singleton. }
  subst params. unfold search_params, sent_if. cbv zeta.
  destruct (truthy query_media_url);
    repeat (rewrite dict_lookup_set_if || rewrite dict_lookup_set); simpl;
    rewrite ?andb_false_r, ?andb_true_r; simpl;
    repeat split; try reflexivity;
    repeat match goal with |- context [if ?b then _ else _] =>
             destruct b; try reflexivity end.
Qed.

(** ** More on [server.download_clips] *)

(** With directory and manifest in place, what is left of the run: the
    selection, the loop and the report. *)
Lemma download_clips_selects (w : world) (L : Z) (sr vi : dict) (st : state)
    (dir url : string) :
  configured w dir → manifest_url vi url →
  Server.download_clips w L sr vi st =
    (processed ← lift (Server.processed_clips L sr);
     clips ← lift (py_iter processed);
     downloaded_clips ← Server.download_loop w dir (VStr url) 0 clips [];
     mret (Server.report L downloaded_clips)) (with_mkdir st dir).
Proof.
  intros Hc Hm. rewrite (download_clips_configured w _ _ _ _ dir Hc).
  destruct (manifest_url_hls vi url Hm) as [Hno _].
  destruct Hm as (hls & Hh & Hu & _).
  unfold lift at 1. rewrite M_bind_unfold, Hno. cbv iota beta.
  unfold lift at 1. rewrite M_bind_unfold. cbn [py_subscript].
  rewrite Hh. cbv iota beta.
  unfold lift at 1. rewrite M_bind_unfold. cbn [py_subscript].
  by rewrite Hu.
Qed.

Lemma list_slice_to_nil {A} (n : Z) : list_slice_to n (@nil A) = [].
Proof. unfold list_slice_to. by rewrite take_nil. Qed.

(** X2.  With directory and manifest in place, a limit of 0 or a result
    without clips gives the report of an empty download: status success,
    no entry, the directory created and no transcoder started. *)
Theorem nothing_selected_nothing_started (w : world) (L : Z) (sr vi : dict)
    (st : state) (dir url : string) (cs : list value) :
  configured w dir → manifest_url vi url → result_clips sr cs →
  L = 0%Z ∨ cs = [] →
  Server.download_clips w L sr vi st =
    (Ok (VDict [("status", VStr "success"); ("clips_requested", VInt L);
                ("clips_downloaded", VInt 0); ("clips", VList [])]),
     with_mkdir st dir).
Proof.
  intros Hc Hm Hsr Hempty.
  assert (Hp : Server.processed_clips L sr = Ok (VList [])).
  { destruct Hempty as [->| ->].
    - by rewrite (processed_clips_prefix 0 sr cs).
    - destruct (processed_clips_total L sr [] Hsr) as (sel & -> & _ & Hsub).
      by apply sublist_nil_r in Hsub as ->. }
  by rewrite (download_clips_runs w L sr vi st dir url [] Hc Hm Hp).
Qed.

Lemma nothing_selected_nothing_started_witness :
  Server.download_clips world_all_ok 0 (flat_of five_clips) video_with_hls st0
    = (Ok (VDict [("status", VStr "success"); ("clips_requested", VInt 0);
                  ("clips_downloaded", VInt 0); ("clips", VList [])]),
       with_mkdir st0 "/home/user/clips").
Proof.
  apply (nothing_selected_nothing_started world_all_ok 0 (flat_of five_clips)
           video_with_hls st0 "/home/user/clips"
           "https://cdn.example/v1.m3u8" five_clips).
  - exists "~/clips". split_and!; [reflexivity|done|reflexivity|reflexivity].
  - eexists. split_and!; [reflexivity|reflexivity|done].
  - left. split; reflexivity.
  - by left.
Defined.

(** X3.  A search result whose ["data"] is [None] is not the same as one
    without ["data"]: the slice of [None] raises [TypeError], which leaves
    the tool after the directory has been created. *)
Theorem data_none_raises (w : world) (L : Z) (sr vi : dict) (st : state)
    (dir url : string) :
  configured w dir → manifest_url vi url →
  dict_lookup "data" sr = Some VNone →
  Server.download_clips w L sr vi st =
    (Raise (mk_exn TypeError ""), with_mkdir st dir).
Proof.
  intros Hc Hm Hd. rewrite (download_clips_selects w L sr vi st dir url Hc Hm).
  unfold lift at 1. rewrite M_bind_unfold.
  unfold Server.processed_clips, dict_get. by rewrite Hd.
Qed.

Lemma data_none_raises_witness :
  Server.download_clips world_all_ok 5 [("data", VNone)] video_with_hls st0
    = (Raise (mk_exn TypeError ""), with_mkdir st0 "/home/user/clips").
Proof.
  apply (data_none_raises world_all_ok 5 [("data", VNone)] video_with_hls st0
           "/home/user/clips" "https://cdn.example/v1.m3u8").
  - exists "~/clips". split_and!; [reflexivity|done|reflexivity|reflexivity].
  - eexists. split_and!; [reflexivity|reflexivity|done].
  - reflexivity.
Defined.

(** X4.  A negative limit on a flat result cuts twice: the slice of line 171
    and the slice of line 173 each drop the last [-L] records, so the
    selection is the result without its last [2 * -L] records. *)
Theorem negative_limit_cuts_twice (L : Z) (sr : dict) (cs : list value) :
  (L < 0)%Z → flat_result sr cs →
  Server.processed_clips L sr =
    Ok (VList (take (length cs - 2 * Z.to_nat (- L)) cs)).
Proof.
  intros HL Hf. rewrite (processed_clips_flat L sr cs Hf).
  unfold list_slice_to, slice_stop.
  rewrite (proj2 (Z.leb_gt 0 L)) by lia.
  rewrite take_take, length_take. do 2 f_equal.
  apply (f_equal (fun n => take n cs)). lia.
Qed.

Lemma negative_limit_cuts_twice_witness :
  Server.processed_clips (-1) (flat_of five_clips)
    = Ok (VList [clip 1 2; clip 3 4; clip 5 6]).
Proof.
  apply (negative_limit_cuts_twice (-1) (flat_of five_clips) five_clips).
  - lia.
  - split; reflexivity.
Defined.

Lemma extend_groups_clips_ignored (L : Z) (rest acc : list value) :
  forallb is_clip rest = true → Server.extend_groups L rest acc = Ok acc.
Proof.
  induction rest as [|c rest IH]; [done|]. simpl forallb.
  intros [Hc Hrest]%andb_true_iff.
  destruct c as [| | | | | |d]; try discriminate.
  simpl in Hc. apply negb_true_iff in Hc. unfold dict_mem in Hc.
  apply bool_decide_eq_false in Hc.
  destruct (dict_lookup "clips" d) as [v|] eqn:Hl.
  { destruct Hc. by exists v. }
  simpl. unfold dict_get. rewrite Hl. simpl. by apply IH.
Qed.

(** X5.  The first element of ["data"] alone decides how the result is
    read.  After a leading clip record every element counts as a clip
    record, groups included; after a leading group, clip records that
    follow it contribute nothing, and the selection is cut from the clips
    of that group. *)
Theorem first_element_decides (L : Z) (sr : dict) (first : value)
    (rest : list value) :
  data_of sr = VList (first :: rest) →
  (is_clip first = true →
   Server.processed_clips L sr =
     Ok (VList (list_slice_to L (list_slice_to L (first :: rest))))) ∧
  (∀ cs, (0 ≤ L)%Z → group_clips first = Some cs →
         forallb is_clip rest = true →
         Server.processed_clips L sr = Ok (VList (take (Z.to_nat L) cs))).
Proof.
  intros Hd. split.
  - intros Hc. unfold Server.processed_clips. fold (data_of sr).
    by rewrite Hd, (is_clip_not_grouped _ _ Hc).
  - intros cs HL Hg Hrest. unfold Server.processed_clips. fold (data_of sr).
    rewrite Hd, (grouped_is_grouped _ _ _ Hg). simpl py_iter.
    rewrite !result_bind_Ok.
    apply group_clips_inv in Hg as (d & -> & Hg).
    assert (Hsel : Server.extend_groups L (VDict d :: rest) [] =
                   Ok (take (Z.to_nat L) cs)).
    { destruct Hg as [[Hg ->]|[Hg _]].
      { rewrite extend_groups_skip by auto. rewrite take_nil.
        by apply extend_groups_clips_ignored. }
      destruct (decide (cs = [])) as [->|Hne].
      { rewrite extend_groups_skip by auto. rewrite take_nil.
        by apply extend_groups_clips_ignored. }
      rewrite (extend_groups_take L d cs) by done.
      rewrite list_slice_to_nonneg by done. simpl app.
      destruct (_ <=? _)%Z; [done|].
      by apply extend_groups_clips_ignored. }
    rewrite Hsel, !result_bind_Ok. simpl.
    rewrite list_slice_to_nonneg, take_take by done.
    by rewrite Nat.min_id.
Qed.

Lemma first_element_decides_witness :
  Server.processed_clips 5
    (flat_of [group [clip 1 2]; clip 3 4; clip 5 6])
  = Ok (VList [clip 1 2]).
Proof.
  refine (proj2 (first_element_decides 5 _ (group [clip 1 2])
                   [clip 3 4; clip 5 6] _) [clip 1 2] _ _ _);
    [reflexivity|lia|reflexivity|reflexivity].
Defined.

Section more_runs.
Context (w : world).

(** When every process can be started and its stderr decoded, the loop
    starts one process and draws one uuid for each clip with both
    timestamps, in order, and none for the others; it adds the entries of
    the clips whose process exited with code 0. *)
Lemma download_loop_counts (dir url : string) (clips : list value) :
  always_starts w → stderr_readable w → forallb is_clip clips = true →
  ∀ (i : nat) (acc : list value) (st : state),
  ∃ new evs st',
    Server.download_loop w dir (VStr url) i clips acc st
      = (Ok (acc ++ new), st') ∧
    log st' = log st ++ evs ∧
    length evs = length (List.filter has_times clips) ∧
    map entry_clip new = succeeded clips evs ∧
    spawned st' = spawned st + length (List.filter has_times clips) ∧
    drawn st' = drawn st + length (List.filter has_times clips).
Proof.
  intros Hw He. induction clips as [|c clips IH]; intros Hc i acc st.
  - exists [], [], st. simpl. rewrite !app_nil_r.
    split_and!; [done|done|done|done|lia..].
  - simpl in Hc. apply andb_true_iff in Hc as [Hclip Hc].
    destruct c as [| | | | | |d]; try discriminate.
    cbn [Server.download_loop]. unfold succeeded. cbn [List.filter].
    rewrite M_bind_unfold, download_one_eq. cbn [is_str negb]. cbv zeta.
    destruct (has_times (VDict d)); cbn [negb]; [|by apply IH].
    destruct (transcoder _ _ _) as [|code wr] eqn:Ho; [by apply Hw in Ho|].
    rewrite He.
    destruct (code =? 0)%Z eqn:Hcode.
    + edestruct (IH Hc (S i)) as (new & evs & st' & -> & Hl & Hn & Hsu & Hs & Hd).
      eexists (_ :: new), (Spawn _ (Exited code wr) :: evs), st'.
      rewrite <- (assoc_L (++)). split; [reflexivity|].
      rewrite Hl, Hs, Hd. cbn [zip_with List.filter snd exited_zero].
      rewrite Hcode. simpl. rewrite <- (assoc_L (++)), Hn.
      split_and!; [done|done| |lia|lia]. f_equal. exact Hsu.
    + edestruct (IH Hc (S i)) as (new & evs & st' & -> & Hl & Hn & Hsu & Hs & Hd).
      eexists new, (Spawn _ (Exited code wr) :: evs), st'.
      split; [reflexivity|].
      rewrite Hl, Hs, Hd. cbn [zip_with List.filter snd exited_zero].
      rewrite Hcode. simpl. rewrite <- (assoc_L (++)), Hn.
      split_and!; [done|done|exact Hsu|lia|lia].
Qed.

(** When no process can be started, the first clip with both timestamps
    ends the loop with [OSError], after one attempt. *)
Lemma download_loop_never_starts (dir url : string) (clips : list value) :
  never_starts w → forallb is_clip clips = true →
  existsb has_times clips = true →
  ∀ (i : nat) (acc : list value) (st : state),
  ∃ st',
    Server.download_loop w dir (VStr url) i clips acc st
      = (Raise (mk_exn OSError ""), st') ∧
    spawned st' = S (spawned st) ∧ files st' = files st.
Proof.
  intros Hw. induction clips as [|c clips IH]; intros Hc Ht i acc st;
    [done|].
  simpl in Hc, Ht. apply andb_true_iff in Hc as [Hclip Hc].
  destruct c as [| | | | | |d]; try discriminate.
  cbn [Server.download_loop].
  rewrite M_bind_unfold, download_one_eq. cbn [is_str negb]. cbv zeta.
  destruct (has_times (VDict d)); cbn [negb].
  - rewrite Hw. by eexists.
  - by apply IH.
Qed.
End more_runs.

(** X6.  With directory and manifest in place, a transcoder that can be
    started and stderr output that can be decoded, [download_clips] returns
    a report with status "success" and the requested count.  It starts
    exactly one transcoder process and draws exactly one uuid for each
    selected clip that has both timestamps, in order: no clip is tried
    twice, a clip without timestamps costs nothing and a nonzero exit code
    does not stop the run.  The report counts the processes that exited
    with code 0 and holds, in order, the entries of exactly the clips they
    were started for, each with the index of its clip in the selection. *)
Theorem one_process_per_timed_clip (w : world) (L : Z) (sr vi : dict)
    (st : state) (dir url : string) (cs : list value) :
  configured w dir → manifest_url vi url → result_clips sr cs →
  always_starts w → stderr_readable w →
  ∃ sel evs downloaded st',
    Server.processed_clips L sr = Ok (VList sel) ∧
    ((0 ≤ L)%Z → sel = take (Z.to_nat L) cs) ∧
    Server.download_clips w L sr vi st =
      (Ok (VDict [("status", VStr "success");
                  ("clips_requested", VInt L);
                  ("clips_downloaded",
                   VInt (Z.of_nat (length (List.filter exited_zero evs))));
                  ("clips", VList downloaded)]), st') ∧
    log st' = log st ++ Mkdir dir :: evs ∧
    forallb is_spawn evs = true ∧
    length evs = length (List.filter has_times sel) ∧
    length downloaded = length (List.filter exited_zero evs) ∧
    map entry_clip downloaded = succeeded sel evs ∧
    Forall (entry_of sel) downloaded ∧
    spawned st' = spawned st + length (List.filter has_times sel) ∧
    drawn st' = drawn st + length (List.filter has_times sel).
Proof.
  intros Hc Hm Hsr Hw He.
  destruct (processed_clips_total L sr cs Hsr) as (sel & Hp & Hclips & _).
  destruct (download_loop_counts w dir url sel Hw He Hclips
              0 [] (with_mkdir st dir))
    as (new & evs & st' & Hloop & Hlog & Hlen & Hsu & Hs & Hd).
  pose proof (download_clips_runs w L sr vi st dir url sel Hc Hm Hp) as Hrun.
  rewrite Hloop in Hrun.
  apply (download_loop_sound w dir (VStr url) sel []) in Hloop
    as (evs' & new' & Hlog' & Hsp & Hnew & Hn & Hof & _).
  rewrite Hlog in Hlog'. apply (inj (app _)) in Hlog' as <-.
  simpl in Hnew. subst new'.
  exists sel, evs, new, st'. split_and!; try done.
  - intros HL. rewrite (processed_clips_prefix L sr cs HL Hsr) in Hp.
    by injection Hp as <-.
  - rewrite Hrun. unfold Server.report. simpl app. by rewrite Hn.
  - rewrite Hlog. simpl. by rewrite <- (assoc_L (++)).
Qed.

Lemma one_process_per_timed_clip_witness :
  ∃ sel evs downloaded st',
    Server.processed_clips 4
      (flat_of [clip 1 2; clip_without_end 3; clip 5 6; clip 7 8; clip 9 10])
      = Ok (VList sel) ∧
    sel = [clip 1 2; clip_without_end 3; clip 5 6; clip 7 8] ∧
    Server.download_clips world_two_fail 4
        (flat_of [clip 1 2; clip_without_end 3; clip 5 6; clip 7 8;
                  clip 9 10])
        video_with_hls st0 =
      (Ok (VDict [("status", VStr "success");
                  ("clips_requested", VInt 4);
                  ("clips_downloaded",
                   VInt (Z.of_nat (length (List.filter exited_zero evs))));
                  ("clips", VList downloaded)]), st') ∧
    length evs = length (List.filter has_times sel) ∧
    map entry_clip downloaded = succeeded sel evs ∧
    spawned st' = 0 + length (List.filter has_times sel).
Proof.
  destruct (one_process_per_timed_clip world_two_fail 4
              (flat_of [clip 1 2; clip_without_end 3; clip 5 6; clip 7 8;
                        clip 9 10])
              video_with_hls st0 "/home/user/clips"
              "https://cdn.example/v1.m3u8"
              [clip 1 2; clip_without_end 3; clip 5 6; clip 7 8; clip 9 10])
    as (sel & evs & downloaded & st' & Hp & Hsel & Hrun & _ & _ & Hlen & _ &
        Hsu & _ & Hs & _).
  - exists "~/clips". split_and!; [reflexivity|done|reflexivity|reflexivity].
  - eexists. split_and!; [reflexivity|reflexivity|done].
  - left. split; reflexivity.
  - intros k cmd. simpl. by destruct (bool_decide _).
  - intros k. reflexivity.
  - exists sel, evs, downloaded, st'.
    split_and!; [exact Hp|apply Hsel; lia|exact Hrun|exact Hlen|exact Hsu|
                 exact Hs].
Defined.

(** X7.  A transcoder that cannot be started is not handled: the handler of
    the loop catches only a nonzero exit, so with directory and manifest in
    place the first selected clip with both timestamps makes the tool raise
    [OSError], after one attempt and without a report. *)
Theorem transcoder_missing_raises (w : world) (L : Z) (sr vi : dict)
    (st : state) (dir url : string) (cs : list value) :
  configured w dir → manifest_url vi url → result_clips sr cs →
  (0 ≤ L)%Z → never_starts w →
  existsb has_times (take (Z.to_nat L) cs) = true →
  ∃ st',
    Server.download_clips w L sr vi st = (Raise (mk_exn OSError ""), st') ∧
    spawned st' = S (spawned st) ∧
    files st' = files st ∪ {[dir]}.
Proof.
  intros Hc Hm Hsr HL Hw Ht.
  rewrite (download_clips_runs w L sr vi st dir url _ Hc Hm
             (processed_clips_prefix L sr cs HL Hsr)).
  destruct (download_loop_never_starts w dir url (take (Z.to_nat L) cs) Hw)
    with (i := 0) (acc := @nil value) (st := with_mkdir st dir)
    as (st' & -> & Hs & Hf); [|done|].
  { apply forallb_take. by apply (result_clips_are_clips sr). }
  by exists st'.
Qed.

Lemma transcoder_missing_raises_witness :
  ∃ st',
    Server.download_clips (world_of (Some "~/clips") (fun _ => SpawnError)) 5
      (flat_of five_clips) video_with_hls st0
      = (Raise (mk_exn OSError ""), st') ∧
    spawned st' = 1 ∧ files st' = files st0 ∪ {["/home/user/clips"]}.
Proof.
  apply (transcoder_missing_raises
           (world_of (Some "~/clips") (fun _ => SpawnError)) 5
           (flat_of five_clips) video_with_hls st0 "/home/user/clips"
           "https://cdn.example/v1.m3u8" five_clips).
  - exists "~/clips". split_and!; [reflexivity|done|reflexivity|reflexivity].
  - eexists. split_and!; [reflexivity|reflexivity|done].
  - left. split; reflexivity.
  - lia.
  - by intros k cmd.
  - reflexivity.
Defined.

(** X8.  The directory is created before anything else is looked at: when
    it cannot be created, the tool raises [OSError] whatever the search
    result and the video record are, and starts no transcoder. *)
Theorem mkdir_failure_raises (w : world) (L : Z) (sr vi : dict) (st : state)
    (p : string) :
  environ w base_path_key = Some p → p ≠ "" →
  mkdir_ok w (abspath_expanduser w p) = false →
  Server.download_clips w L sr vi st = (Raise (mk_exn OSError ""), st) ∧
  ∀ L' sr' vi',
    Server.download_clips w L' sr' vi' st
      = Server.download_clips w L sr vi st.
Proof.
  intros Hp Hne Hm. split; [by apply (download_clips_mkdir_fails w _ _ _ _ p)|].
  intros L' sr' vi'. by rewrite !(download_clips_mkdir_fails w _ _ _ _ p).
Qed.

Lemma mkdir_failure_raises_witness :
  Server.download_clips
    {| environ := fun _ => Some "/proc/clips";
       abspath_expanduser := fun p => p;
       mkdir_ok := fun _ => false;
       uuid4 := fun _ => "";
       transcoder := fun _ _ => Exited 0 true;
       video_retrieve := fun _ _ => Ok VNone;
       search_query := fun _ => Ok VNone;
       stderr_utf8 := fun _ => true |}
    5 (flat_of five_clips) video_with_hls st0
  = (Raise (mk_exn OSError ""), st0).
Proof.
  refine (proj1 (mkdir_failure_raises _ 5 (flat_of five_clips) video_with_hls
                   st0 "/proc/clips" _ _ _)); [reflexivity|done|reflexivity].
Defined.

(** ** File names *)

Lemma chars_app (a b : string) :
  String.list_ascii_of_string (a +:+ b)
    = String.list_ascii_of_string a ++ String.list_ascii_of_string b.
Proof.
  induction a as [|c a IH]; [done|].
  change (String c a +:+ b) with (String c (a +:+ b)). simpl. by rewrite IH.
Qed.

Lemma chars_inj (a b : string) :
  String.list_ascii_of_string a = String.list_ascii_of_string b → a = b.
Proof.
  intros H. rewrite <- (String.string_of_list_ascii_of_string a),
    <- (String.string_of_list_ascii_of_string b). by rewrite H.
Qed.

(** Two digit strings followed by an underscore: if the whole texts agree,
    the digit strings agree. *)
Lemma digits_prefix_inj (a b x y : list ascii) :
  forallb is_digit a = true → forallb is_digit b = true →
  a ++ "_"%char :: x = b ++ "_"%char :: y → a = b.
Proof.
  revert b. induction a as [|c a IH]; intros [|c' b]; simpl.
  - done.
  - intros _ [Hc _]%andb_true_iff [= <- _]. discriminate Hc.
  - intros [Hc _]%andb_true_iff _ [= -> _]. discriminate Hc.
  - intros [_ Ha]%andb_true_iff [_ Hb]%andb_true_iff [= -> H].
    f_equal. by apply IH.
Qed.

Lemma digits_suffix_inj (a b x y : list ascii) :
  forallb is_digit a = true → forallb is_digit b = true →
  x ++ "_"%char :: a = y ++ "_"%char :: b → a = b.
Proof.
  intros Ha Hb H. apply (f_equal (@rev ascii)) in H.
  rewrite !rev_app_distr in H. simpl in H. rewrite <- !(assoc_L (++)) in H.
  simpl in H. apply digits_prefix_inj in H.
  - by rewrite <- (rev_involutive a), H, rev_involutive.
  - rewrite forallb_forall in *. intros c Hc. apply Ha. by apply in_rev.
  - rewrite forallb_forall in *. intros c Hc. apply Hb. by apply in_rev.
Qed.

Lemma pretty_N_go_digits (x : N) :
  ∀ s, forallb is_digit (String.list_ascii_of_string s) = true →
       forallb is_digit (String.list_ascii_of_string (pretty_N_go x s)) = true.
Proof.
  induction (N.lt_wf_0 x) as [x _ IH]; intros s Hs.
  destruct (decide (x = 0)%N) as [->|Hx]; [by rewrite pretty_N_go_0|].
  rewrite pretty_N_go_step by lia. apply IH; [apply N.div_lt; lia|].
  simpl. rewrite Hs, andb_true_r.
  unfold pretty_N_char. by repeat case_match.
Qed.

Lemma pretty_nat_digits (n : nat) :
  forallb is_digit (String.list_ascii_of_string (pretty n)) = true.
Proof.
  unfold pretty, pretty_nat, pretty, pretty_N. case_decide; [done|].
  by apply pretty_N_go_digits.
Qed.

(** The path of a clip names its index: two paths under one directory
    agree only at the same index, whatever the uuids are. *)
Lemma clip_path_index (dir id id' : string) (i j : nat) :
  Server.clip_path dir id i = Server.clip_path dir id' j → i = j.
Proof.
  unfold Server.clip_path, path_join. intros H.
  assert (Hn : id +:+ "_" +:+ pretty i +:+ ".mp4"
               = id' +:+ "_" +:+ pretty j +:+ ".mp4").
  { destruct (String.eqb dir "/").
    - by do 2 apply (inj (String.append _)) in H.
    - by do 3 apply (inj (String.append _)) in H. }
  apply (f_equal String.list_ascii_of_string) in Hn. rewrite !chars_app in Hn.
  change (String.list_ascii_of_string "_") with ["_"%char] in Hn. simpl in Hn.
  rewrite !(app_comm_cons _ _ "_"%char), !(assoc_L (++)) in Hn.
  apply (inj (.++ _)) in Hn.
  apply digits_suffix_inj in Hn; auto using pretty_nat_digits.
  by apply chars_inj, (inj pretty) in Hn.
Qed.

Section slots.
Context (w : world) (dir : string) (m3u8_url : value).

Lemma slot_from_le (i j : nat) (e : value) :
  i ≤ j → slot_from dir j e → slot_from dir i e.
Proof. intros Hij [Hj Hp]. split; [lia|done]. Qed.

(** The entries the loop adds have increasing indices, from [i] on, and
    each has the path of its index. *)
Lemma download_loop_slots (clips : list value) :
  ∀ (i : nat) (acc r : list value) (st st' : state),
  Server.download_loop w dir m3u8_url i clips acc st = (Ok r, st') →
  ∃ new, r = acc ++ new ∧ Forall (slot_from dir i) new ∧
         StronglySorted index_lt new.
Proof.
  induction clips as [|c clips IH]; intros i acc r st st'.
  - intros [= <- <-]. exists []. rewrite app_nil_r.
    split_and!; [done|done|constructor].
  - cbn [Server.download_loop]. rewrite M_bind_unfold.
    destruct (Server.download_one _ _ _ _ _ _ _) as [[r1|e] st1] eqn:H1;
      [|done].
    intros (new2 & -> & Hslots & Hsorted)%IH.
    destruct (is_dict c) eqn:Hd.
    2:{ by rewrite download_one_not_dict in H1. }
    destruct c as [| | | | | |d]; try discriminate.
    rewrite download_one_eq in H1.
    assert (Hweak : Forall (slot_from dir i) new2).
    { eapply Forall_impl; [exact Hslots|]. intros e.
      apply slot_from_le. lia. }
    destruct (has_times (VDict d)); cbn [negb] in H1.
    2:{ injection H1 as <- <-. by exists new2. }
    destruct (is_str m3u8_url); cbn [negb] in H1; [|done].
    cbv zeta in H1. destruct (transcoder _ _ _) as [|code wr]; [done|].
    destruct (code =? 0)%Z.
    2:{ destruct (stderr_utf8 w (spawned st)); [|done].
        injection H1 as <- <-. by exists new2. }
    injection H1 as <- <-.
    eexists (_ :: new2). rewrite <- (assoc_L (++)). split; [reflexivity|].
    split.
    + constructor; [|done]. split; [simpl; lia|]. eexists. simpl.
      by rewrite Nat2Z.id.
    + constructor; [done|]. eapply Forall_impl; [exact Hslots|].
      intros e [He _]. unfold index_lt. simpl. lia.
Qed.

Lemma sorted_slots_NoDup (i : nat) (l : list value) :
  Forall (slot_from dir i) l → StronglySorted index_lt l →
  NoDup (map entry_path l).
Proof.
  intros Hslots. induction 1 as [|e l Hsorted IH Hlt]; simpl.
  - constructor.
  - apply Forall_cons in Hslots as [[Hi (id & Hp)] Hslots].
    apply NoDup_cons. split; [|by apply IH].
    intros (e' & Heq & He')%list_elem_of_fmap.
    pose proof (proj1 (Forall_forall _ _) Hlt e' He') as Hee.
    pose proof (proj1 (Forall_forall _ _) Hslots e' He') as [Hi' (id' & Hp')].
    rewrite Hp, Hp' in Heq. injection Heq as Heq.
    apply clip_path_index in Heq. unfold index_lt in Hee. lia.
Qed.
End slots.

(** X9.  In the report of a run the entries stand by increasing index and
    no two of them have the same path: the index in the file name keeps the
    clips of one run apart even when uuids repeat. *)
Theorem report_paths_distinct (w : world) (L : Z) (sr vi : dict)
    (st st' : state) (downloaded : list value) :
  Server.download_clips w L sr vi st
    = (Ok (Server.report L downloaded), st') →
  StronglySorted Z.lt (map entry_index downloaded) ∧
  NoDup (map entry_path downloaded).
Proof.
  intros Hrun.
  destruct (configured_cases w) as [Hu|[(p & Hp & Hne & Hm)|[dir Hc]]].
  { by rewrite download_clips_unconfigured in Hrun. }
  { by rewrite (download_clips_mkdir_fails w _ _ _ _ p) in Hrun. }
  rewrite (download_clips_configured w _ _ _ _ dir Hc) in Hrun.
  unfold lift in Hrun. rewrite M_bind_unfold in Hrun.
  destruct (Server.no_hls_url vi) as [[|]|e]; [done| |done].
  rewrite M_bind_unfold in Hrun.
  destruct (py_subscript (VDict vi) "hls") as [hls|]; [|done].
  rewrite M_bind_unfold in Hrun.
  destruct (py_subscript hls "video_url") as [url|]; [|done].
  rewrite M_bind_unfold in Hrun.
  destruct (Server.processed_clips L sr) as [processed|]; [|done].
  rewrite M_bind_unfold in Hrun.
  destruct (py_iter processed) as [clips|]; [|done].
  rewrite M_bind_unfold in Hrun.
  destruct (Server.download_loop _ _ _ _ _ _ _) as [[dl|] st1] eqn:Hloop;
    [|done].
  assert (dl = downloaded) as ->.
  { unfold Server.report in Hrun. injection Hrun as _ Hdl. exact Hdl. }
  apply download_loop_slots in Hloop as (new & -> & Hslots & Hsorted).
  simpl app. split; [|by apply (sorted_slots_NoDup dir 0)].
  clear Hslots Hrun. induction Hsorted as [|e l _ IH Hlt]; simpl.
  - constructor.
  - constructor; [done|]. by apply Forall_fmap.
Qed.

Lemma report_paths_distinct_witness :
  StronglySorted Z.lt [0; 2; 4]%Z ∧
  NoDup [VStr "/home/user/clips/clip_4f9c2e7a_0.mp4";
         VStr "/home/user/clips/clip_4f9c2e7a_2.mp4";
         VStr "/home/user/clips/clip_4f9c2e7a_4.mp4"].
Proof.
  apply (report_paths_distinct world_two_fail 5 (flat_of five_clips)
           video_with_hls st0
           (snd (Server.download_clips world_two_fail 5 (flat_of five_clips)
                   video_with_hls st0))
           [Server.clip_entry 0 (VInt 1) (VInt 2)
              "/home/user/clips/clip_4f9c2e7a_0.mp4" (clip 1 2);
            Server.clip_entry 2 (VInt 5) (VInt 6)
              "/home/user/clips/clip_4f9c2e7a_2.mp4" (clip 5 6);
            Server.clip_entry 4 (VInt 9) (VInt 10)
              "/home/user/clips/clip_4f9c2e7a_4.mp4" (clip 9 10)]).
  vm_compute. reflexivity.
Defined.

(** ** [utils.download_clips] *)

(** X10.  The selection of [utils.download_clips] reads every element by
    its class.  When the library has the class of groups, or every element
    is a clip, clips and groups may be mixed in any order: the selection is
    the first [num_clips] of all their clips in order (all but the last
    [-num_clips] for a negative limit), elements of other classes and
    groups without clips adding nothing.  When the library does not have
    the class of groups, the first element that is not a clip makes the
    selection raise [AttributeError]. *)
Theorem utils_selection_flattens (group_class : bool)
    (data : list Utils.item) (L : Z) :
  (classifiable group_class data →
   ∃ sel,
     Utils.clips_data group_class data L = Ok sel ∧
     sel = list_slice_to L (concat (map item_clips data)) ∧
     sel `sublist_of` concat (map item_clips data) ∧
     ((0 ≤ L)%Z → (Z.of_nat (length sel) ≤ L)%Z) ∧
     ((L < 0)%Z →
      length sel = length (concat (map item_clips data)) - Z.to_nat (- L))) ∧
  (forallb is_search_data data = false →
   Utils.clips_data false data L = Raise (mk_exn AttributeError "")).
Proof.
  split.
  - intros Hcl. eexists. split; [by apply clips_data_classifiable|].
    split_and!; [done|apply sublist_take| |].
    + intros HL. rewrite list_slice_to_nonneg, length_take by done. lia.
    + intros HL. unfold list_slice_to, slice_stop.
      rewrite (proj2 (Z.leb_gt 0 L)) by lia. rewrite length_take. lia.
  - intros Hd. rewrite clips_data_eq. by rewrite Hd.
Qed.

Lemma utils_selection_flattens_witness :
  (∃ sel, Utils.clips_data false flat_sample_data 1 = Ok sel ∧
          sel = list_slice_to 1 (concat (map item_clips flat_sample_data))) ∧
  Utils.clips_data false sample_data 1 = Raise (mk_exn AttributeError "").
Proof.
  split.
  - destruct (proj1 (utils_selection_flattens false flat_sample_data 1))
      as (sel & Hsel & Heq & _); [reflexivity|].
    exists sel. split; [exact Hsel|exact Heq].
  - apply (proj2 (utils_selection_flattens false sample_data 1)).
    reflexivity.
Defined.

Section batch.
Context (w : world) (tmpdir : string) (format_2f : float → string).

Lemma plan_seek_seek_of (s e : float) : Utils.plan_seek s e = Ok (seek_of s e).
Proof. apply plan_seek_eq. Qed.

Lemma download_clip_outcome (url : string) (s e : float) (out : string)
    (st : state) :
  Utils.download_clip w url s e out st =
    (Ok (clip_outcome w url out (seek_of s e) st).1,
     (clip_outcome w url out (seek_of s e) st).2).
Proof.
  unfold clip_outcome. case_bool_decide as Hin.
  - by rewrite download_clip_present.
  - by rewrite (download_clip_absent w url s e out st _ Hin
                  (plan_seek_seek_of s e)).
Qed.

(** One turn of the loop of [utils.download_clips] *)
Lemma download_each_cons (index_id : string) (i : nat)
    (c : Utils.SearchData) (cs : list Utils.SearchData) (acc : list string)
    (st : state) :
  Utils.download_each w tmpdir format_2f index_id i (c :: cs) acc st =
    let out := Utils.os_path_join (Utils.output_dir tmpdir)
                 (Utils.clip_filename format_2f i c) in
    let o := clip_outcome w (url_of c) out
               (seek_of (Utils.start c) (Utils.end_ c)) st in
    Utils.download_each w tmpdir format_2f index_id (S i) cs
      (if o.1 then acc ++ [out] else acc) o.2.
Proof.
  cbn [Utils.download_each].
  change (Utils.get_video_url index_id (Utils.video_id c))
    with (Some (String "h" ("ttps://example.com/videos/" +:+
                            Utils.video_id c +:+ ".mp4"))).
  cbv iota beta. rewrite M_bind_unfold.
  change (String "h" ("ttps://example.com/videos/" +:+
                      Utils.video_id c +:+ ".mp4")) with (url_of c).
  by rewrite download_clip_outcome.
Qed.

Lemma clip_outcome_frame (url out : string) (p : Utils.seek_plan)
    (st : state) :
  let o := clip_outcome w url out p st in
  files st ⊆ files o.2 ∧ files o.2 ⊆ files st ∪ {[out]} ∧
  spawned st ≤ spawned o.2 ≤ S (spawned st) ∧
  drawn o.2 = drawn st ∧
  (out ∈ files st → o = (true, st)).
Proof.
  unfold clip_outcome. case_bool_decide as Hin; simpl.
  { split_and!; try done; set_solver. }
  split_and!; try done; try lia.
  - destruct (transcoder _ _ _) as [|c [|]]; set_solver.
  - destruct (transcoder _ _ _) as [|c [|]]; [set_solver| |set_solver].
    unfold output_of. simpl last. set_solver.
Qed.

(** The loop returns, and what it returns are planned paths in order; it
    starts at most one process for each clip. *)
Lemma download_each_total (index_id : string) (clips : list Utils.SearchData) :
  ∀ (i : nat) (acc : list string) (st : state),
  ∃ got st',
    Utils.download_each w tmpdir format_2f index_id i clips acc st
      = (Ok (acc ++ got), st') ∧
    got `sublist_of` planned_paths tmpdir format_2f i clips ∧
    spawned st ≤ spawned st' ≤ spawned st + length clips ∧
    files st ⊆ files st'.
Proof.
  induction clips as [|c clips IH]; intros i acc st.
  - exists [], st. rewrite app_nil_r. simpl. split_and!; try done; lia.
  - rewrite download_each_cons. cbv zeta.
    pose proof (clip_outcome_frame (url_of c)
      (Utils.os_path_join (Utils.output_dir tmpdir)
         (Utils.clip_filename format_2f i c))
      (seek_of (Utils.start c) (Utils.end_ c)) st) as (Hf & _ & Hs & _).
    destruct (clip_outcome _ _ _ _ _) as [b st1]. simpl in *.
    edestruct (IH (S i)) as (got & st' & -> & Hsub & Hsp & Hfi).
    destruct b.
    + eexists (_ :: got), st'. rewrite <- (assoc_L (++)).
      split_and!; [reflexivity|by apply sublist_skip|lia|lia|].
      clear Hs Hsp. set_solver.
    + exists got, st'.
      split_and!; [reflexivity|by apply sublist_cons|lia|lia|].
      clear Hs Hsp. set_solver.
Qed.

(** When every planned path is there the loop returns them all and
    changes nothing. *)
Lemma download_each_present (index_id : string)
    (clips : list Utils.SearchData) :
  ∀ (i : nat) (acc : list string) (st : state),
  (∀ p, p ∈ planned_paths tmpdir format_2f i clips → p ∈ files st) →
  Utils.download_each w tmpdir format_2f index_id i clips acc st
    = (Ok (acc ++ planned_paths tmpdir format_2f i clips), st).
Proof.
  induction clips as [|c clips IH]; intros i acc st Hin.
  - by rewrite app_nil_r.
  - rewrite download_each_cons. cbv zeta.
    pose proof (clip_outcome_frame (url_of c)
      (Utils.os_path_join (Utils.output_dir tmpdir)
         (Utils.clip_filename format_2f i c))
      (seek_of (Utils.start c) (Utils.end_ c)) st) as (_ & _ & _ & _ & Hp).
    rewrite Hp by (apply Hin; simpl; apply list_elem_of_here).
    simpl. rewrite IH.
    + by rewrite <- (assoc_L (++)).
    + intros p Hp'. apply Hin. simpl. by apply list_elem_of_further.
Qed.

(** When every process exits with code 0 the loop returns every planned
    path; when each has also written its file, every planned path is
    there afterwards. *)
Lemma download_each_all_ok (index_id : string)
    (clips : list Utils.SearchData) :
  always_succeeds w →
  ∀ (i : nat) (acc : list string) (st : state),
  ∃ st',
    Utils.download_each w tmpdir format_2f index_id i clips acc st
      = (Ok (acc ++ planned_paths tmpdir format_2f i clips), st') ∧
    files st ⊆ files st' ∧
    (always_writes w →
     ∀ p, p ∈ planned_paths tmpdir format_2f i clips → p ∈ files st').
Proof.
  intros Hw. induction clips as [|c clips IH]; intros i acc st.
  - exists st. rewrite app_nil_r. split_and!; [done|done|].
    by intros _ p ?%elem_of_nil.
  - rewrite download_each_cons. cbv zeta. unfold clip_outcome.
    set (out := Utils.os_path_join (Utils.output_dir tmpdir)
                  (Utils.clip_filename format_2f i c)).
    case_bool_decide as Hin; simpl.
    + edestruct (IH (S i)) as (st' & -> & Hf & Hall).
      exists st'. rewrite <- (assoc_L (++)).
      split_and!; [done|done|].
      intros Hww p [->|Hp]%elem_of_cons; [set_solver|by apply Hall].
    + destruct (Hw (spawned st)
                  (Utils.ffmpeg_cmd (url_of c)
                     (seek_of (Utils.start c) (Utils.end_ c)) out))
        as [wrote Ho].
      rewrite Ho. edestruct (IH (S i)) as (st' & -> & Hf & Hall).
      exists st'. rewrite <- (assoc_L (++)). simpl in Hf.
      split_and!; [done|destruct wrote; set_solver|].
      intros Hww p [->|Hp]%elem_of_cons; [|by apply Hall].
      rewrite Hww in Ho. injection Ho as <-. apply Hf.
      unfold output_of. simpl last. set_solver.
Qed.
End batch.

(** X11.  [utils.download_clips] with nothing to download, because the
    limit is 0 or the result holds no clip, returns the empty list before
    it touches anything, when the elements of the result can be
    classified: no directory is created and no transcoder is started. *)
Theorem utils_nothing_to_download (w : world) (group_class : bool)
    (tmpdir : string) (format_2f : float → string) (index_id : string)
    (data : list Utils.item) (L : Z) (st : state) :
  classifiable group_class data →
  L = 0%Z ∨ concat (map item_clips data) = [] →
  Utils.download_clips w group_class tmpdir format_2f index_id data L st
    = (Ok [], st).
Proof.
  intros Hcl H. unfold Utils.download_clips.
  rewrite (clips_data_classifiable _ _ _ Hcl), M_bind_lift_Ok.
  destruct H as [->| ->]; [|by rewrite list_slice_to_nil].
  by rewrite list_slice_to_nonneg.
Qed.

Lemma utils_nothing_to_download_witness :
  Utils.download_clips world_all_ok false "/tmp" two_decimals "idx"
    flat_sample_data 0 st0 = (Ok [], st0).
Proof.
  apply (utils_nothing_to_download world_all_ok false "/tmp" two_decimals
           "idx" flat_sample_data 0 st0); [reflexivity|by left].
Defined.

(** X12.  Once [utils.download_clips] has selected something, it raises
    only when its directory cannot be created.  Otherwise it returns
    whatever the transcoder does, also when no process can be started: the
    paths it returns are planned paths of the selection, in order, and it
    starts at most one process for each selected clip. *)
Theorem utils_batch_survives_transcoder (w : world) (group_class : bool)
    (tmpdir : string) (format_2f : float → string) (index_id : string)
    (data : list Utils.item) (L : Z) (st : state)
    (sel : list Utils.SearchData) :
  Utils.clips_data group_class data L = Ok sel → sel ≠ [] →
  (mkdir_ok w (Utils.output_dir tmpdir) = false →
   Utils.download_clips w group_class tmpdir format_2f index_id data L st
     = (Raise (mk_exn OSError ""), st)) ∧
  (mkdir_ok w (Utils.output_dir tmpdir) = true →
   ∃ got st',
     Utils.download_clips w group_class tmpdir format_2f index_id data L st
       = (Ok got, st') ∧
     got `sublist_of` planned_paths tmpdir format_2f 0 sel ∧
     spawned st' ≤ spawned st + length sel ∧
     Utils.output_dir tmpdir ∈ files st').
Proof.
  intros Hsel Hne. unfold Utils.download_clips.
  rewrite Hsel, M_bind_lift_Ok. destruct sel as [|c cs]; [done|].
  rewrite M_bind_unfold. unfold mkdir. split; intros ->; [done|].
  edestruct (download_each_total w tmpdir format_2f index_id (c :: cs) 0 [])
    as (got & st' & -> & Hsub & Hsp & Hf).
  exists got, st'. simpl in *. split_and!; [done|done|lia|].
  clear Hsp. set_solver.
Qed.

Lemma utils_batch_survives_transcoder_witness :
  ∃ got st',
    Utils.download_clips (world_of None (fun _ => SpawnError)) false "/tmp"
      two_decimals "idx" flat_sample_data 5 st0 = (Ok got, st') ∧
    spawned st' ≤ 2.
Proof.
  destruct (utils_batch_survives_transcoder
              (world_of None (fun _ => SpawnError)) false "/tmp" two_decimals
              "idx" flat_sample_data 5 st0 sample_clips) as [_ H];
    [reflexivity|done|].
  destruct (H eq_refl) as (got & st' & Hrun & _ & Hs & _).
  exists got, st'. split; [exact Hrun|exact Hs].
Defined.

(** X13.  When the selection returns, the directory can be created and
    every transcoder process exits with code 0, [utils.download_clips]
    returns the planned path of every selected clip, in the order of the
    selection. *)
Theorem utils_batch_all_paths (w : world) (group_class : bool)
    (tmpdir : string) (format_2f : float → string) (index_id : string)
    (data : list Utils.item) (L : Z) (st : state)
    (sel : list Utils.SearchData) :
  Utils.clips_data group_class data L = Ok sel →
  always_succeeds w → mkdir_ok w (Utils.output_dir tmpdir) = true →
  ∃ st',
    Utils.download_clips w group_class tmpdir format_2f index_id data L st
      = (Ok (planned_paths tmpdir format_2f 0 sel), st').
Proof.
  intros Hsel Hw Hm. unfold Utils.download_clips.
  rewrite Hsel, M_bind_lift_Ok. destruct sel as [|c cs]; [by exists st|].
  rewrite M_bind_unfold. unfold mkdir. rewrite Hm.
  edestruct (download_each_all_ok w tmpdir format_2f index_id (c :: cs) Hw 0 [])
    as (st' & -> & _).
  by exists st'.
Qed.

Lemma utils_batch_all_paths_witness :
  ∃ st',
    Utils.download_clips world_all_ok false "/tmp" two_decimals "idx"
      flat_sample_data 5 st0
    = (Ok ["/tmp/twelvelabs_clips/clip_1_v1_10.00_15.00.mp4";
           "/tmp/twelvelabs_clips/clip_2_v2_10.00_15.00.mp4"], st').
Proof.
  apply (utils_batch_all_paths world_all_ok false "/tmp" two_decimals "idx"
           flat_sample_data 5 st0 sample_clips).
  - reflexivity.
  - intros k cmd. by exists true.
  - reflexivity.
Defined.

(** X14.  On a result whose elements can be classified,
    [utils.download_clips] is idempotent over a transcoder that succeeds
    and writes its files: run a second time on the same search result, it
    finds every file of the first run, starts no transcoder and returns
    the same paths. *)
Theorem utils_batch_idempotent (w : world) (group_class : bool)
    (tmpdir : string) (format_2f : float → string) (index_id : string)
    (data : list Utils.item) (L : Z) (st : state) :
  classifiable group_class data →
  always_writes w → mkdir_ok w (Utils.output_dir tmpdir) = true →
  let run :=
    Utils.download_clips w group_class tmpdir format_2f index_id data L in
  ∃ paths st1 st2,
    run st = (Ok paths, st1) ∧ run st1 = (Ok paths, st2) ∧
    spawned st2 = spawned st1 ∧ files st2 = files st1.
Proof.
  intros Hcl Hw Hm run. subst run. unfold Utils.download_clips.
  rewrite (clips_data_classifiable _ _ _ Hcl), !M_bind_lift_Ok.
  destruct (list_slice_to L _) as [|c cs]; [by exists [], st, st|].
  rewrite M_bind_unfold. unfold mkdir at 1. rewrite Hm.
  assert (Hs : always_succeeds w) by (intros k cmd; by exists true).
  edestruct (download_each_all_ok w tmpdir format_2f index_id (c :: cs) Hs 0 [])
    as (st1 & Hrun & Hf & Hall).
  rewrite Hrun. eexists _, st1, _. split; [reflexivity|].
  rewrite M_bind_lift_Ok, M_bind_unfold. unfold mkdir. rewrite Hm.
  rewrite download_each_present.
  - split_and!; [reflexivity|reflexivity|]. simpl in *.
    rewrite (comm_L (∪)). apply subseteq_union_1_L.
    apply singleton_subseteq_l, Hf, elem_of_union_r, elem_of_singleton.
    reflexivity.
  - intros p Hp. simpl. apply elem_of_union_l. by apply Hall.
Qed.

Lemma utils_batch_idempotent_witness :
  ∃ paths st1 st2,
    Utils.download_clips world_all_ok false "/tmp" two_decimals "idx"
      flat_sample_data 5 st0 = (Ok paths, st1) ∧
    Utils.download_clips world_all_ok false "/tmp" two_decimals "idx"
      flat_sample_data 5 st1 = (Ok paths, st2) ∧
    spawned st2 = spawned st1 ∧ files st2 = files st1.
Proof.
  apply (utils_batch_idempotent world_all_ok false "/tmp" two_decimals "idx"
           flat_sample_data 5 st0); [reflexivity|by intros k cmd|reflexivity].
Defined.

(** X15.  [utils.download_clip] touches nothing but its output: a call
    leaves every existing path in place, adds at most [output_path],
    starts at most one process, and starts none and changes nothing when
    the file is already there. *)
Theorem download_clip_frame (w : world) (url : string) (s e : float) (out : string)
    (st : state) :
  ∃ b st',
    Utils.download_clip w url s e out st = (Ok b, st') ∧
    files st ⊆ files st' ∧ files st' ⊆ files st ∪ {[out]} ∧
    spawned st ≤ spawned st' ≤ S (spawned st) ∧
    drawn st' = drawn st ∧
    (out ∈ files st → b = true ∧ st' = st).
Proof.
  rewrite download_clip_outcome.
  pose proof (clip_outcome_frame w url out (seek_of s e) st)
    as (H1 & H2 & H3 & H4 & H5).
  destruct H3 as [H3 H3'].
  eexists _, _. split_and!; [reflexivity|done..|].
  intros Hin. by rewrite (H5 Hin).
Qed.

(** The planned path of a clip names its index. *)
Lemma utils_path_index (dir : string) (format_2f : float → string)
    (i j : nat) (c c' : Utils.SearchData) :
  Utils.os_path_join dir (Utils.clip_filename format_2f i c)
    = Utils.os_path_join dir (Utils.clip_filename format_2f j c') →
  i = j.
Proof.
  unfold Utils.os_path_join, Utils.clip_filename.
  set (r := Utils.video_id c +:+ _). set (r' := Utils.video_id c' +:+ _).
  change ("clip_" +:+ pretty (i + 1) +:+ "_" +:+ r)
    with (String "c" ("lip_" +:+ pretty (i + 1) +:+ "_" +:+ r)).
  change ("clip_" +:+ pretty (j + 1) +:+ "_" +:+ r')
    with (String "c" ("lip_" +:+ pretty (j + 1) +:+ "_" +:+ r')).
  cbv iota. intros H.
  assert (Hn : pretty (i + 1) +:+ "_" +:+ r = pretty (j + 1) +:+ "_" +:+ r').
  { destruct (_ || _).
    - apply (inj (String.append _)) in H. injection H as H. exact H.
    - do 2 apply (inj (String.append _)) in H. injection H as H. exact H. }
  apply (f_equal String.list_ascii_of_string) in Hn.
  rewrite !chars_app in Hn.
  change (String.list_ascii_of_string "_") with ["_"%char] in Hn.
  simpl in Hn. apply digits_prefix_inj in Hn; auto using pretty_nat_digits.
  apply chars_inj, (inj pretty) in Hn. lia.
Qed.

Lemma planned_paths_from (tmpdir : string) (format_2f : float → string)
    (clips : list Utils.SearchData) :
  ∀ i p, p ∈ planned_paths tmpdir format_2f i clips →
  ∃ j c, i ≤ j ∧
         p = Utils.os_path_join (Utils.output_dir tmpdir)
               (Utils.clip_filename format_2f j c).
Proof.
  induction clips as [|c clips IH]; intros i p; simpl.
  - by intros ?%elem_of_nil.
  - intros [->|(j & c' & Hj & ->)%IH]%elem_of_cons.
    + by exists i, c.
    + exists j, c'. split; [lia|done].
Qed.

Lemma planned_paths_NoDup (tmpdir : string) (format_2f : float → string)
    (clips : list Utils.SearchData) :
  ∀ i, NoDup (planned_paths tmpdir format_2f i clips).
Proof.
  induction clips as [|c clips IH]; intros i; simpl; [constructor|].
  apply NoDup_cons. split; [|apply IH].
  intros (j & c' & Hj & Heq)%planned_paths_from.
  apply utils_path_index in Heq. lia.
Qed.

(** X16.  The paths [utils.download_clips] returns are pairwise distinct:
    the position of the clip in the selection opens the file name, so two
    clips of one call never share a file, whatever their video ids and
    timestamps are and however the timestamps are printed. *)
Theorem utils_returned_paths_distinct (w : world) (group_class : bool)
    (tmpdir : string) (format_2f : float → string) (index_id : string)
    (data : list Utils.item) (L : Z) (st st' : state) (got : list string) :
  Utils.download_clips w group_class tmpdir format_2f index_id data L st
    = (Ok got, st') →
  ∃ sel,
    Utils.clips_data group_class data L = Ok sel ∧
    NoDup got ∧
    got `sublist_of` planned_paths tmpdir format_2f 0 sel.
Proof.
  unfold Utils.download_clips. unfold lift at 1. rewrite M_bind_unfold.
  destruct (Utils.clips_data group_class data L) as [sel|]; [|done].
  intros Hrun. exists sel. split; [done|]. revert Hrun.
  destruct sel as [|c cs].
  { intros [= <- <-]. split; [constructor|done]. }
  rewrite M_bind_unfold. unfold mkdir.
  destruct (mkdir_ok w _); [|done].
  edestruct (download_each_total w tmpdir format_2f index_id (c :: cs) 0 [])
    as (got' & st1 & -> & Hsub & _).
  intros [= <- <-]. split; [|done].
  eapply sublist_NoDup; [apply planned_paths_NoDup|exact Hsub].
Qed.

Lemma utils_returned_paths_distinct_witness :
  ∃ sel,
    Utils.clips_data false flat_sample_data 5 = Ok sel ∧
    NoDup ["/tmp/twelvelabs_clips/clip_1_v1_10.00_15.00.mp4";
           "/tmp/twelvelabs_clips/clip_2_v2_10.00_15.00.mp4"] ∧
    ["/tmp/twelvelabs_clips/clip_1_v1_10.00_15.00.mp4";
     "/tmp/twelvelabs_clips/clip_2_v2_10.00_15.00.mp4"]
      `sublist_of` planned_paths "/tmp" two_decimals 0 sel.
Proof.
  refine (utils_returned_paths_distinct world_all_ok false "/tmp"
            two_decimals "idx" flat_sample_data 5 st0
            (snd (Utils.download_clips world_all_ok false "/tmp"
                    two_decimals "idx" flat_sample_data 5 st0)) _ _).
  vm_compute. reflexivity.
Defined.

(** X17.  With a negative limit a grouped result is read no further than
    its first group: when that group has clips the loop is left at once,
    what follows is not looked at, and the selection is that group without
    its last [2 * -L] clips. *)
Theorem negative_limit_first_group (L : Z) (sr : dict) (g : value)
    (rest cs : list value) :
  (L < 0)%Z → data_of sr = VList (g :: rest) →
  group_clips g = Some cs → cs ≠ [] →
  Server.processed_clips L sr =
    Ok (VList (take (length cs - 2 * Z.to_nat (- L)) cs)).
Proof.
  intros HL Hd Hg Hne. unfold Server.processed_clips. fold (data_of sr).
  rewrite Hd, (grouped_is_grouped _ _ _ Hg). simpl py_iter.
  rewrite !result_bind_Ok.
  apply group_clips_inv in Hg as (d & -> & [[_ ->]|[Hg _]]); [done|].
  rewrite (extend_groups_take L d cs) by done. simpl app.
  rewrite (proj2 (Z.leb_le L _)) by lia.
  rewrite !result_bind_Ok. simpl. unfold list_slice_to, slice_stop.
  rewrite (proj2 (Z.leb_gt 0 L)) by lia.
  rewrite take_take, length_take. do 2 f_equal.
  apply (f_equal (fun n => take n cs)). lia.
Qed.

Lemma negative_limit_first_group_witness :
  Server.processed_clips (-1)
    (flat_of [group [clip 1 2; clip 3 4; clip 5 6]; VStr "not a group"])
  = Ok (VList [clip 1 2]).
Proof.
  apply (negative_limit_first_group (-1) _
           (group [clip 1 2; clip 3 4; clip 5 6]) [VStr "not a group"]
           [clip 1 2; clip 3 4; clip 5 6]);
    [lia|reflexivity|reflexivity|done].
Defined.

(** X18.  When the library does not have the class of groups, a search
    result with an element that is not a clip makes [utils.download_clips]
    raise [AttributeError] while it selects, whatever the limit is: no
    directory is created and no transcoder is started. *)
Theorem utils_missing_class_raises (w : world) (tmpdir : string)
    (format_2f : float → string) (index_id : string)
    (data : list Utils.item) (L : Z) (st : state) :
  forallb is_search_data data = false →
  Utils.download_clips w false tmpdir format_2f index_id data L st
    = (Raise (mk_exn AttributeError ""), st).
Proof.
  intros Hd. unfold Utils.download_clips. unfold lift.
  rewrite M_bind_unfold, clips_data_eq. by rewrite Hd.
Qed.

Lemma utils_missing_class_raises_witness :
  Utils.download_clips world_all_ok false "/tmp" two_decimals "idx"
    sample_data 5 st0 = (Raise (mk_exn AttributeError ""), st0).
Proof.
  apply (utils_missing_class_raises world_all_ok "/tmp" two_decimals "idx"
           sample_data 5 st0).
  reflexivity.
Defined.
